(** * Mood analytics of the Insights view (frontend/src/pages/Insights.tsx)

    The development embeds the three memoised computations of the
    Insights page, [stats], [patterns] and [moodTrendData], and proves
    the properties stated for them.

    Conventions of the embedding.
    - JavaScript numbers are reached through the interface [JSNumber],
      which has two instances: [Binary64], the IEEE 754 doubles of the
      language (Rocq's primitive floats), and [Exact], exact rationals
      extended with NaN and the two infinities.  Whatever only depends
      on the control flow is proved for every instance; what depends on
      arithmetic laws is proved on [Exact], where no rounding occurs.
    - Timestamps are integer milliseconds, kept in [Z]: every expression
      the page evaluates on them (differences and multiples of a day) is
      exact in a double below 2^53.
    - The mood, energy, anxiety and sleep of an entry are integers (the
      sliders of the quick log yield [parseInt] values), kept in [Z] and
      injected into the number type where the page does arithmetic.
    - [Date.now()] is read once: the evaluation instant [now] is an
      argument of every computation. *)

From Stdlib Require Import ZArith QArith Qcanon Qround.
From Stdlib Require Import List Bool String Ascii DecimalString Lia Sorted Permutation.
From Stdlib Require Import PrimFloat FloatOps SpecFloat Lqa.
Import ListNotations.

Local Open Scope Z_scope.

(* ================================================================== *)
(** * JavaScript numbers *)
(* ================================================================== *)

(** The operations the page performs on numbers. *)
Class JSNumber (T : Type) : Type := {
  ofZ : Z -> T;                 (* an integer literal, or an integer field *)
  add : T -> T -> T;            (* a + b *)
  sub : T -> T -> T;            (* a - b *)
  mul : T -> T -> T;            (* a * b *)
  div : T -> T -> T;            (* a / b *)
  gtb : T -> T -> bool;         (* a > b *)
  truthy : T -> bool;           (* ToBoolean(a), as read by a || b *)
  round : T -> T;               (* Math.round(a) *)
  min : T -> T -> T;            (* Math.min(a, b) *)
  toFixed1 : T -> string        (* a.toFixed(1) *)
}.

Section NumberSyntax.
Context {T : Type} `{JSNumber T}.

(** [a < b] is [b > a]. *)
Definition ltb (a b : T) : bool := gtb b a.

(** A decimal literal [n/d] with [d] a power of ten: the double nearest
    to the written value, which is what a correctly rounded division
    of the two integers yields. *)
Definition dec (n d : Z) : T := div (ofZ n) (ofZ d).

(** [a || 0] *)
Definition orZero (a : T) : T := if truthy a then a else ofZ 0.

(** [xs.length] as a number. *)
Definition len {A : Type} (xs : list A) : T := ofZ (Z.of_nat (List.length xs)).
End NumberSyntax.

(** Decimal rendering of a non-negative integer. *)
Definition digits (z : Z) : string := NilZero.string_of_uint (N.to_uint (Z.to_N z)).

(** ** Exact numbers *)

Module Exact.

Inductive num : Type :=
| Fin (q : Qc)
| NaN
| PInf
| NInf.

Definition zq (z : Z) : Qc := Q2Qc (inject_Z z).

(** Sign of a rational: [Lt] negative, [Eq] zero, [Gt] positive. *)
Definition sgn (q : Qc) : comparison := (this q ?= 0)%Q.

Definition isZero (q : Qc) : bool :=
  match sgn q with Eq => true | _ => false end.

Definition neg (a : num) : num :=
  match a with
  | Fin q => Fin (- q)%Qc
  | NaN => NaN
  | PInf => NInf
  | NInf => PInf
  end.

Definition add (a b : num) : num :=
  match a, b with
  | NaN, _ | _, NaN => NaN
  | Fin p, Fin q => Fin (p + q)%Qc
  | PInf, NInf | NInf, PInf => NaN
  | PInf, _ | _, PInf => PInf
  | NInf, _ | _, NInf => NInf
  end.

Definition sub (a b : num) : num := add a (neg b).

(** An infinity of the sign of [c]; NaN when [c] is [Eq]. *)
Definition inf (c : comparison) : num :=
  match c with Gt => PInf | Lt => NInf | Eq => NaN end.

Definition mul (a b : num) : num :=
  match a, b with
  | NaN, _ | _, NaN => NaN
  | Fin p, Fin q => Fin (p * q)%Qc
  | Fin p, PInf | PInf, Fin p => inf (sgn p)
  | Fin p, NInf | NInf, Fin p => inf (CompOpp (sgn p))
  | PInf, PInf | NInf, NInf => PInf
  | PInf, NInf | NInf, PInf => NInf
  end.

(** Division; the dividend over a zero divisor gives an infinity of the
    dividend's sign and [0/0] gives NaN.  The model has one zero, which
    divides as the positive zero does. *)
Definition div (a b : num) : num :=
  match a, b with
  | NaN, _ | _, NaN => NaN
  | Fin p, Fin q => if isZero q then inf (sgn p) else Fin (p / q)%Qc
  | Fin _, (PInf | NInf) => Fin 0%Qc
  | (PInf | NInf), (PInf | NInf) => NaN
  | PInf, Fin q => match sgn q with Lt => NInf | _ => PInf end
  | NInf, Fin q => match sgn q with Lt => PInf | _ => NInf end
  end.

Definition gtb (a b : num) : bool :=
  match a, b with
  | NaN, _ | _, NaN => false
  | Fin p, Fin q => match (this p ?= this q)%Q with Gt => true | _ => false end
  | PInf, (Fin _ | NInf) | Fin _, NInf => true
  | _, _ => false
  end.

Definition truthy (a : num) : bool :=
  match a with
  | Fin q => negb (isZero q)
  | NaN => false
  | PInf | NInf => true
  end.

(** [Math.round]: the integer nearest to the argument, ties upwards. *)
Definition roundZ (q : Qc) : Z := Qfloor (this q + (1 # 2))%Q.

Definition round (a : num) : num :=
  match a with
  | Fin q => Fin (zq (roundZ q))
  | _ => a
  end.

Definition min (a b : num) : num :=
  match a, b with
  | NaN, _ | _, NaN => NaN
  | _, _ => if gtb a b then b else a
  end.

(** [toFixed(1)] of a non-negative rational: the integer [n] nearest to
    ten times the value (the larger one on a tie), printed with its last
    digit after the point.  The rendering is that of JavaScript below
    1e21, the range in which [toFixed] prints positional digits. *)
Definition fixed1 (q : Q) : string :=
  let n := Qfloor (q * 10 + (1 # 2))%Q in
  (digits (n / 10) ++ "." ++ digits (n mod 10))%string.

Definition toFixed1 (a : num) : string :=
  match a with
  | Fin q =>
      match sgn q with
      | Lt => ("-" ++ fixed1 (- this q)%Q)%string
      | _ => fixed1 (this q)
      end
  | NaN => "NaN"%string
  | PInf => "Infinity"%string
  | NInf => "-Infinity"%string
  end.

Definition ofZ (z : Z) : num := Fin (zq z).

End Exact.

#[export] Instance ExactNumber : JSNumber Exact.num := {
  ofZ := Exact.ofZ;
  add := Exact.add;
  sub := Exact.sub;
  mul := Exact.mul;
  div := Exact.div;
  gtb := Exact.gtb;
  truthy := Exact.truthy;
  round := Exact.round;
  min := Exact.min;
  toFixed1 := Exact.toFixed1
}.

(** ** IEEE 754 doubles *)

Module Binary64.

(** The double nearest to an integer. *)
Definition ofZ (z : Z) : float :=
  SF2Prim (binary_normalize prec emax z 0 false).

(** The exact value of a double. *)
Definition toExact (a : float) : Exact.num :=
  match Prim2SF a with
  | S754_zero _ => Exact.Fin 0%Qc
  | S754_infinity false => Exact.PInf
  | S754_infinity true => Exact.NInf
  | S754_nan => Exact.NaN
  | S754_finite s m e =>
      let v := match e with
               | Zneg k => Z.pos m # (2 ^ k)
               | _ => inject_Z (Z.pos m * 2 ^ e)
               end in
      Exact.Fin (Q2Qc (if s then - v else v)%Q)
  end.

Definition gtb (a b : float) : bool := PrimFloat.ltb b a.

Definition truthy (a : float) : bool := negb (is_nan a || is_zero a).

(** [Math.round]: zeros, infinities and NaN are returned as they are; a
    value that rounds to zero keeps its sign. *)
Definition round (a : float) : float :=
  match toExact a with
  | Exact.Fin q =>
      if is_zero a then a
      else
        let z := Exact.roundZ q in
        if (z =? 0)%Z then (if get_sign a then neg_zero else zero)
        else ofZ z
  | _ => a
  end.

(** [Math.min]: NaN when an argument is NaN; the negative zero is below
    the positive one. *)
Definition min (a b : float) : float :=
  if is_nan a || is_nan b then nan
  else if PrimFloat.ltb b a then b
  else if PrimFloat.ltb a b then a
  else if get_sign a then a else b.

Definition toFixed1 (a : float) : string := Exact.toFixed1 (toExact a).

End Binary64.

#[export] Instance Binary64Number : JSNumber float := {
  ofZ := Binary64.ofZ;
  add := PrimFloat.add;
  sub := PrimFloat.sub;
  mul := PrimFloat.mul;
  div := PrimFloat.div;
  gtb := Binary64.gtb;
  truthy := Binary64.truthy;
  round := Binary64.round;
  min := Binary64.min;
  toFixed1 := Binary64.toFixed1
}.

Declare Scope js_scope.
Delimit Scope js_scope with js.
Infix "+" := add : js_scope.
Infix "-" := sub : js_scope.
Infix "*" := mul : js_scope.
Infix "/" := div : js_scope.
Infix ">" := gtb : js_scope.
Infix "<" := ltb : js_scope.

(* ================================================================== *)
(** * Data model *)
(* ================================================================== *)

(** [interface MoodEntry] *)
Record MoodEntry : Type := {
  id : string;
  date : string;
  timestamp : Z;
  mood : Z;
  energy : Z;
  anxiety : Z;
  sleep : Z;
  exercise : bool;
  social : bool;
  meditation : bool;
  notes : string;
  symptoms : list string
}.

(** The [type] of a pattern. *)
Inductive PatternType : Type := trigger | booster | time | day.

(** The icons the detector attaches to its patterns, one per heuristic. *)
Inductive Icon : Type := Dumbbell | Users | Moon | Calendar | Brain.

Set Implicit Arguments.

(** [interface Pattern] *)
Record Pattern (T : Type) : Type := {
  type : PatternType;
  title : string;
  description : string;
  confidence : T;
  icon : Icon
}.

(** The value [stats] returns for a non-empty collection. *)
Module Snapshot.
Record t (T : Type) : Type := {
  avgMood : string;
  avgEnergy : string;
  avgAnxiety : string;
  avgSleep : string;
  exerciseCount : nat;
  socialCount : nat;
  meditationCount : nat;
  currentStreak : nat;
  wellnessScore : T;
  moodChange : string;
  totalEntries : nat;
  last7Days : nat;
  last30Days : nat
}.
End Snapshot.

Unset Implicit Arguments.

(** A point of the trend chart. *)
Module Trend.
Record t : Type := {
  date : string;
  mood : Z;
  energy : Z;
  anxiety : Z;
  sleep : Z
}.
End Trend.

(** The weekdays, named as [toLocaleDateString('en-US', { weekday: 'long' })]
    names them. *)
Inductive Weekday : Type :=
  Sunday | Monday | Tuesday | Wednesday | Thursday | Friday | Saturday.

Definition dayName (d : Weekday) : string :=
  match d with
  | Sunday => "Sunday" | Monday => "Monday" | Tuesday => "Tuesday"
  | Wednesday => "Wednesday" | Thursday => "Thursday" | Friday => "Friday"
  | Saturday => "Saturday"
  end.

Definition Weekday_eqb (a b : Weekday) : bool :=
  match a, b with
  | Sunday, Sunday | Monday, Monday | Tuesday, Tuesday
  | Wednesday, Wednesday | Thursday, Thursday | Friday, Friday
  | Saturday, Saturday => true
  | _, _ => false
  end.

(* ================================================================== *)
(** * Dates *)
(* ================================================================== *)

(** [24 * 60 * 60 * 1000], the milliseconds of a day. *)
Definition DAY : Z := 24 * 60 * 60 * 1000.

(** [new Date(t).toISOString().split('T')[0]]: the UTC calendar date of
    the instant [t].  Two instants have the same date string exactly when
    they lie in the same UTC day, so the date is represented by the number
    of that day, counted from the epoch. *)
Definition isoDate (t : Z) : Z := t / DAY.

(** The weekday of an instant in the UTC time zone (the epoch fell on a
    Thursday). *)
Definition utcWeekday (t : Z) : Weekday :=
  match (isoDate t + 4) mod 7 with
  | 0 => Sunday | 1 => Monday | 2 => Tuesday | 3 => Wednesday
  | 4 => Thursday | 5 => Friday | _ => Saturday
  end.

(* ================================================================== *)
(** * Arrays *)
(* ================================================================== *)

(** [xs.sort((a, b) => b.timestamp - a.timestamp)]: the stable sort of the
    language, by decreasing timestamp.  An element is put before the first
    element whose timestamp is not greater than its own, so that entries of
    equal timestamps keep their order. *)
Fixpoint insertDesc (e : MoodEntry) (sorted : list MoodEntry) : list MoodEntry :=
  match sorted with
  | [] => [e]
  | x :: rest =>
      if timestamp x <=? timestamp e then e :: x :: rest
      else x :: insertDesc e rest
  end.

Definition sortDesc (xs : list MoodEntry) : list MoodEntry :=
  fold_right insertDesc [] xs.

(** [xs.push(p)] when the option holds a pattern. *)
Definition push {A : Type} (xs : list A) (p : option A) : list A :=
  match p with
  | Some x => xs ++ [x]
  | None => xs
  end.

(* ================================================================== *)
(** * The computations of the page *)
(* ================================================================== *)

Section Insights.
Context {T : Type} `{JSNumber T}.

(** The two renderings that read the time zone and the locale of the
    browser: the weekday of an instant,
    [toLocaleDateString('en-US', { weekday: 'long' })], and its short
    date, [toLocaleDateString('en-US', { month: 'short', day: 'numeric' })]. *)
Variable weekday : Z -> Weekday.
Variable shortDate : Z -> string.

(** The evaluation instant, [Date.now()]. *)
Variable now : Z.

(** [xs.reduce((sum, e) => sum + e.f, 0)] *)
Definition sumOf {A : Type} (f : A -> Z) (xs : list A) : T :=
  fold_left (fun sum e => (sum + ofZ (f e))%js) xs (ofZ 0).

(** [xs.reduce((sum, e) => sum + e.f, 0) / xs.length] *)
Definition mean {A : Type} (f : A -> Z) (xs : list A) : T :=
  (sumOf f xs / len xs)%js.

(** ** Statistics *)

Definition last7Days (moodEntries : list MoodEntry) : list MoodEntry :=
  filter (fun e => now - timestamp e <? 7 * DAY) moodEntries.

Definition last30Days (moodEntries : list MoodEntry) : list MoodEntry :=
  filter (fun e => now - timestamp e <? 30 * DAY) moodEntries.

Definition avgMood (moodEntries : list MoodEntry) : T :=
  orZero (mean mood (last7Days moodEntries)).

Definition avgEnergy (moodEntries : list MoodEntry) : T :=
  orZero (mean energy (last7Days moodEntries)).

Definition avgAnxiety (moodEntries : list MoodEntry) : T :=
  orZero (mean anxiety (last7Days moodEntries)).

Definition avgSleep (moodEntries : list MoodEntry) : T :=
  orZero (mean sleep (last7Days moodEntries)).

Definition exerciseCount (moodEntries : list MoodEntry) : nat :=
  List.length (filter exercise (last7Days moodEntries)).

Definition socialCount (moodEntries : list MoodEntry) : nat :=
  List.length (filter social (last7Days moodEntries)).

Definition meditationCount (moodEntries : list MoodEntry) : nat :=
  List.length (filter meditation (last7Days moodEntries)).

(** The loop of the streak: [i] is the index of the entry at the head of
    [entries]; the walk stops at the first entry whose date is not that
    of [i] days before [now]. *)
Fixpoint streakLoop (i : nat) (entries : list MoodEntry) : nat :=
  match entries with
  | [] => O
  | e :: rest =>
      let entryDate := isoDate (timestamp e) in
      let expectedDate := isoDate (now - Z.of_nat i * DAY) in
      if entryDate =? expectedDate then S (streakLoop (S i) rest) else O
  end.

Definition currentStreak (moodEntries : list MoodEntry) : nat :=
  let sortedEntries := sortDesc moodEntries in
  streakLoop 0 sortedEntries.

Definition count (n : nat) : T := ofZ (Z.of_nat n).

Definition wellnessScore (moodEntries : list MoodEntry) : T :=
  round
    ((avgMood moodEntries * dec 3 10
      + avgEnergy moodEntries * dec 2 10
      + (ofZ 10 - avgAnxiety moodEntries) * dec 2 10
      + avgSleep moodEntries * dec 15 100
      + (count (exerciseCount moodEntries) / ofZ 7 * ofZ 10) * dec 1 10
      + (count (socialCount moodEntries) / ofZ 7 * ofZ 10) * dec 5 100)
     * ofZ 10)%js.

Definition prevWeek (moodEntries : list MoodEntry) : list MoodEntry :=
  filter (fun e => (timestamp e <? now - 7 * DAY)
                   && (timestamp e >? now - 14 * DAY)) moodEntries.

Definition prevWeekAvgMood (moodEntries : list MoodEntry) : T :=
  orZero (mean mood (prevWeek moodEntries)).

Definition moodChange (moodEntries : list MoodEntry) : T :=
  (avgMood moodEntries - prevWeekAvgMood moodEntries)%js.

(** [stats]; [None] is the [null] returned for an empty collection. *)
Definition stats (moodEntries : list MoodEntry) : option (Snapshot.t T) :=
  match moodEntries with
  | [] => None
  | _ =>
      Some {|
        Snapshot.avgMood := toFixed1 (avgMood moodEntries);
        Snapshot.avgEnergy := toFixed1 (avgEnergy moodEntries);
        Snapshot.avgAnxiety := toFixed1 (avgAnxiety moodEntries);
        Snapshot.avgSleep := toFixed1 (avgSleep moodEntries);
        Snapshot.exerciseCount := exerciseCount moodEntries;
        Snapshot.socialCount := socialCount moodEntries;
        Snapshot.meditationCount := meditationCount moodEntries;
        Snapshot.currentStreak := currentStreak moodEntries;
        Snapshot.wellnessScore := wellnessScore moodEntries;
        Snapshot.moodChange := toFixed1 (moodChange moodEntries);
        Snapshot.totalEntries := List.length moodEntries;
        Snapshot.last7Days := List.length (last7Days moodEntries);
        Snapshot.last30Days := List.length (last30Days moodEntries)
      |}
  end.

(** ** Patterns *)

(** Exercise correlation. *)
Definition exercisePattern (moodEntries : list MoodEntry) : option (Pattern T) :=
  let withExercise := filter exercise moodEntries in
  let withoutExercise := filter (fun e => negb (exercise e)) moodEntries in
  if (3 <? List.length withExercise)%nat && (3 <? List.length withoutExercise)%nat
  then
    let avgMoodWithEx := mean mood withExercise in
    let avgMoodWithoutEx := mean mood withoutExercise in
    if (avgMoodWithEx - avgMoodWithoutEx > ofZ 1)%js then
      Some {|
        type := booster;
        title := "Exercise Boosts Your Mood";
        description :=
          "Your mood is " ++ toFixed1 (avgMoodWithEx - avgMoodWithoutEx)%js
          ++ " points higher on days you exercise.";
        confidence :=
          min (ofZ 95) (round ((avgMoodWithEx - avgMoodWithoutEx) * ofZ 15)%js);
        icon := Dumbbell
      |}
    else None
  else None.

(** Social interaction correlation. *)
Definition socialPattern (moodEntries : list MoodEntry) : option (Pattern T) :=
  let withSocial := filter social moodEntries in
  let withoutSocial := filter (fun e => negb (social e)) moodEntries in
  if (3 <? List.length withSocial)%nat && (3 <? List.length withoutSocial)%nat
  then
    let avgMoodWithSocial := mean mood withSocial in
    let avgMoodWithoutSocial := mean mood withoutSocial in
    if (avgMoodWithSocial - avgMoodWithoutSocial > dec 8 10)%js then
      Some {|
        type := booster;
        title := "Social Connection Helps";
        description :=
          "You feel " ++ toFixed1 (avgMoodWithSocial - avgMoodWithoutSocial)%js
          ++ " points better after social interaction.";
        confidence :=
          min (ofZ 90)
              (round ((avgMoodWithSocial - avgMoodWithoutSocial) * ofZ 12)%js);
        icon := Users
      |}
    else None
  else None.

(** Sleep quality correlation. *)
Definition sleepPattern (moodEntries : list MoodEntry) : option (Pattern T) :=
  let goodSleep := filter (fun e => sleep e >=? 7) moodEntries in
  let poorSleep := filter (fun e => sleep e <? 5) moodEntries in
  if (2 <? List.length goodSleep)%nat && (2 <? List.length poorSleep)%nat
  then
    let avgMoodGoodSleep := mean mood goodSleep in
    let avgMoodPoorSleep := mean mood poorSleep in
    if (avgMoodGoodSleep - avgMoodPoorSleep > ofZ 1)%js then
      Some {|
        type := trigger;
        title := "Poor Sleep Affects Your Mood";
        description :=
          "Your mood drops " ++ toFixed1 (avgMoodGoodSleep - avgMoodPoorSleep)%js
          ++ " points after poor sleep.";
        confidence :=
          min (ofZ 95) (round ((avgMoodGoodSleep - avgMoodPoorSleep) * ofZ 15)%js);
        icon := Moon
      |}
    else None
  else None.

(** [if (!dayMoods[day]) dayMoods[day] = []; dayMoods[day].push(m)]: the
    object keeps its keys in the order of their first insertion. *)
Fixpoint pushDay (d : Weekday) (m : Z) (dayMoods : list (Weekday * list Z))
  : list (Weekday * list Z) :=
  match dayMoods with
  | [] => [(d, [m])]
  | (k, moods) :: rest =>
      if Weekday_eqb k d then (k, moods ++ [m]) :: rest
      else (k, moods) :: pushDay d m rest
  end.

Definition dayMoods (moodEntries : list MoodEntry) : list (Weekday * list Z) :=
  fold_left (fun acc entry => pushDay (weekday (timestamp entry)) (mood entry) acc)
            moodEntries [].

(** [Object.entries(dayMoods).map(([day, moods]) => ({ day, avg }))] *)
Definition dayAverages (moodEntries : list MoodEntry) : list (Weekday * T) :=
  map (fun '(d, moods) => (d, mean (fun m : Z => m) moods)) (dayMoods moodEntries).

(** [dayAverages.reduce((best, curr) => curr.avg > best.avg ? curr : best,
    dayAverages[0])]; [None] is the [undefined] of an empty array. *)
Definition bestDay (moodEntries : list MoodEntry) : option (Weekday * T) :=
  match dayAverages moodEntries with
  | [] => None
  | first :: _ =>
      Some (fold_left
              (fun best curr => if (snd curr > snd best)%js then curr else best)
              (dayAverages moodEntries) first)
  end.

Definition worstDay (moodEntries : list MoodEntry) : option (Weekday * T) :=
  match dayAverages moodEntries with
  | [] => None
  | first :: _ =>
      Some (fold_left
              (fun worst curr => if (snd curr < snd worst)%js then curr else worst)
              (dayAverages moodEntries) first)
  end.

(** Day of week pattern. *)
Definition dayPattern (moodEntries : list MoodEntry) : option (Pattern T) :=
  match bestDay moodEntries, worstDay moodEntries with
  | Some best, Some worst =>
      if (5 <=? List.length (dayAverages moodEntries))%nat
         && (snd best - snd worst > dec 15 10)%js
      then
        Some {|
          type := day;
          title := dayName (fst worst) ++ "s Are Harder for You";
          description :=
            "Your mood is " ++ toFixed1 (snd best - snd worst)%js
            ++ " points lower on " ++ dayName (fst worst)
            ++ "s compared to " ++ dayName (fst best) ++ "s.";
          confidence := ofZ 75;
          icon := Calendar
        |}
      else None
  | _, _ => None
  end.

(** Meditation correlation. *)
Definition meditationPattern (moodEntries : list MoodEntry) : option (Pattern T) :=
  let withMeditation := filter meditation moodEntries in
  if (3 <? List.length withMeditation)%nat then
    let avgAnxietyWithMed := mean anxiety withMeditation in
    let avgAnxietyOverall := mean anxiety moodEntries in
    if (avgAnxietyOverall - avgAnxietyWithMed > ofZ 1)%js then
      Some {|
        type := booster;
        title := "Meditation Reduces Anxiety";
        description :=
          "Your anxiety is " ++ toFixed1 (avgAnxietyOverall - avgAnxietyWithMed)%js
          ++ " points lower on days you meditate.";
        confidence := ofZ 85;
        icon := Brain
      |}
    else None
  else None.

(** [patterns] *)
Definition patterns (moodEntries : list MoodEntry) : list (Pattern T) :=
  if (List.length moodEntries <? 7)%nat then []
  else
    let detectedPatterns := [] in
    let detectedPatterns := push detectedPatterns (exercisePattern moodEntries) in
    let detectedPatterns := push detectedPatterns (socialPattern moodEntries) in
    let detectedPatterns := push detectedPatterns (sleepPattern moodEntries) in
    let detectedPatterns := push detectedPatterns (dayPattern moodEntries) in
    let detectedPatterns := push detectedPatterns (meditationPattern moodEntries) in
    detectedPatterns.

(** ** Chart data *)

(** [moodTrendData] *)
Definition moodTrendData (moodEntries : list MoodEntry) : list Trend.t :=
  map (fun entry =>
         {| Trend.date := shortDate (timestamp entry);
            Trend.mood := mood entry;
            Trend.energy := energy entry;
            Trend.anxiety := anxiety entry;
            Trend.sleep := sleep entry |})
      (rev (firstn 30 moodEntries)).

End Insights.

(* ================================================================== *)
(** * Notions of the specification *)
(* ================================================================== *)

(** A score in the closed range [0,10]. *)
Definition inScale (v : Z) : Prop := 0 <= v <= 10.

(** An entry whose four scores are in the scale. *)
Definition validEntry (e : MoodEntry) : Prop :=
  inScale (mood e) /\ inScale (energy e) /\ inScale (anxiety e)
  /\ inScale (sleep e).

(** The sum of a field over a list of entries. *)
Definition total {A : Type} (f : A -> Z) (xs : list A) : Z :=
  fold_right Z.add 0 (map f xs).

(** A decimal fraction. *)
Definition frac (n : Z) (d : positive) : Qc := Q2Qc (n # d).

(** The arithmetic mean of a field, an empty list having mean 0. *)
Definition meanQ {A : Type} (f : A -> Z) (xs : list A) : Qc :=
  match xs with
  | [] => 0%Qc
  | _ => Q2Qc (inject_Z (total f xs) / inject_Z (Z.of_nat (List.length xs)))
  end.

(** The entries with [now - createdAtTimestamp < 7 days]. *)
Definition week (now : Z) (es : list MoodEntry) : list MoodEntry :=
  filter (fun e => now - timestamp e <? 7 * DAY) es.

(** The number of entries of a list that satisfy [p]. *)
Definition countOf (p : MoodEntry -> bool) (es : list MoodEntry) : Z :=
  Z.of_nat (List.length (filter p es)).

(** The wellness score as the specification writes it:
    round((avgMood*0.3 + avgEnergy*0.2 + (10-avgAnxiety)*0.2 + avgSleep*0.15
           + (exerciseCount/7*10)*0.1 + (socialCount/7*10)*0.05) * 10),
    over the entries of the last seven days. *)
Definition specScore (now : Z) (es : list MoodEntry) : Z :=
  let w := week now es in
  Exact.roundZ
    ((meanQ mood w * frac 3 10
      + meanQ energy w * frac 2 10
      + (Exact.zq 10 - meanQ anxiety w) * frac 2 10
      + meanQ sleep w * frac 15 100
      + (Exact.zq (countOf exercise w) / Exact.zq 7 * Exact.zq 10) * frac 1 10
      + (Exact.zq (countOf social w) / Exact.zq 7 * Exact.zq 10) * frac 5 100)
     * Exact.zq 10)%Qc.

(** An entry with another meditation flag. *)
Definition withMeditation (b : MoodEntry -> bool) (e : MoodEntry) : MoodEntry :=
  {| id := id e; date := date e; timestamp := timestamp e;
     mood := mood e; energy := energy e; anxiety := anxiety e;
     sleep := sleep e; exercise := exercise e; social := social e;
     meditation := b e; notes := notes e; symptoms := symptoms e |}.



(** Timestamps decrease along the list. *)
Definition descending : list MoodEntry -> Prop :=
  StronglySorted (fun a b => timestamp b <= timestamp a).

(** The calendar day of an entry is [k] days before that of [now]. *)
Definition daysAgo (now : Z) (k : Z) (e : MoodEntry) : Prop :=
  isoDate (timestamp e) = isoDate now - k.

(** Equality of weekdays is decidable. *)
Definition Weekday_eq_dec (a b : Weekday) : {a = b} + {a <> b}.
Proof. decide equality. Defined.

(** The number of distinct weekdays on which the entries were created. *)
Definition distinctWeekdays (weekday : Z -> Weekday) (es : list MoodEntry) : nat :=
  List.length (nodup Weekday_eq_dec (map (fun e => weekday (timestamp e)) es)).

(** The entries created on the weekday [d]. *)
Definition onWeekday (weekday : Z -> Weekday) (d : Weekday)
  (es : list MoodEntry) : list MoodEntry :=
  filter (fun e => Weekday_eqb (weekday (timestamp e)) d) es.


(** An entry was created on the weekday [d]. *)
Definition represented (weekday : Z -> Weekday) (es : list MoodEntry)
  (d : Weekday) : Prop :=
  In d (map (fun e => weekday (timestamp e)) es).



(** [xs] is [ys] with some elements left out, the order kept. *)
Inductive subsequence {A : Type} : list A -> list A -> Prop :=
| subsequence_nil : subsequence [] []
| subsequence_skip x xs ys : subsequence xs ys -> subsequence xs (x :: ys)
| subsequence_keep x xs ys : subsequence xs ys -> subsequence (x :: xs) (x :: ys).

(** The heuristics in the order in which the detector evaluates them, by
    the icon of the pattern each one emits. *)
Definition heuristics : list Icon := [Dumbbell; Users; Moon; Calendar; Brain].

(** The pattern of an option as a list of at most one element. *)
Definition emitted {A : Type} (p : option A) : list A :=
  match p with Some x => [x] | None => [] end.

(** The integer value of an exact number, when it has one. *)
Definition integerValue (a : Exact.num) : option Z :=
  match a with
  | Exact.Fin q => if (Z.pos (Qden (this q)) =? 1) then Some (Qnum (this q)) else None
  | _ => None
  end.

(* ================================================================== *)
(** * Collections used as examples *)
(* ================================================================== *)

(** An entry created at [ts] with the given scores and activities. *)
Definition entry (ts m en an sl : Z) (ex so me : bool) : MoodEntry :=
  {| id := ""; date := ""; timestamp := ts;
     mood := m; energy := en; anxiety := an; sleep := sl;
     exercise := ex; social := so; meditation := me;
     notes := ""; symptoms := [] |}.

(** 2023-11-14T22:13:20Z, a Tuesday. *)
Definition instant : Z := 1700000000000.

(** Eight entries of one day, each with exercise and social contact. *)
Definition busyWeek : list MoodEntry :=
  repeat (entry instant 10 10 0 10 true true false) 8.

(** Exercise-day moods [8,8,8,8] against non-exercise moods [5,5,5,5]. *)
Definition exerciseDays : list MoodEntry :=
  repeat (entry instant 8 5 5 5 true false false) 4
  ++ repeat (entry instant 5 5 5 5 false false false) 4.

(** Exercise correlation of confidence 30 followed by a meditation
    pattern of confidence 85. *)
Definition calmDays : list MoodEntry :=
  repeat (entry instant 7 5 2 5 true false true) 4
  ++ repeat (entry instant 5 5 8 5 false false false) 4.

(** One entry of yesterday. *)
Definition yesterdayOnly : list MoodEntry :=
  [entry (instant - DAY) 5 5 5 5 false false false].

(** An entry of today and one of yesterday. *)
Definition twoDays : list MoodEntry :=
  [entry instant 5 5 5 5 false false false;
   entry (instant - DAY) 5 5 5 5 false false false].


(** An entry of today and one created exactly fourteen days ago. *)
Definition fortnight : list MoodEntry :=
  [entry instant 5 5 5 5 false false false;
   entry (instant - 14 * DAY) 3 5 5 5 false false false].

(** Seven entries, one per day of a week, with the moods of five weekdays
    well above those of the other two. *)
Definition fullWeek : list MoodEntry :=
  map (fun k => entry (instant - k * DAY) (if k <? 2 then 2 else 8) 5 5 5
                      false false false)
      [0; 1; 2; 3; 4; 5; 6].

(** Seven entries on three weekdays, the moods of one weekday six points
    below those of the other two. *)
Definition threeWeekdays : list MoodEntry :=
  map (fun k => entry (instant - k * DAY) (if k =? 0 then 2 else 8) 5 5 5
                      false false false)
      [0; 1; 2; 0; 1; 2; 0].

(** Three entries. *)
Definition fewEntries : list MoodEntry :=
  repeat (entry instant 9 5 5 5 true false false) 3.

Definition examples : list (list MoodEntry) :=
  [busyWeek; exerciseDays; calmDays; yesterdayOnly; twoDays; fortnight;
   fullWeek; threeWeekdays; fewEntries].

(* ================================================================== *)
(** * Loading and saving *)
(* ================================================================== *)

(** A mood log as the API returns it. *)
Module Api.

Record Activities : Type := {
  exercise : bool;
  social : bool;
  meditation : bool
}.

(** [notes] is [None] when the field is absent or null. *)
Record MoodLog : Type := {
  _id : string;
  date : string;
  created_at : string;
  mood : Z;
  energy : Z;
  anxiety : Z;
  sleep : Z;
  activities : Activities;
  notes : option string
}.

End Api.

(** What a request comes to.  The body is [None] when reading it with
    [response.json()], or reading a field of it, throws. *)
Inductive LoadOutcome : Type :=
| LoadRejected                                   (* fetch throws *)
| LoadRefused                                    (* response.ok is false *)
| Loaded (body : option (list Api.MoodLog)).     (* response.ok, data.mood_logs *)

Inductive SaveOutcome : Type :=
| SaveRejected                                   (* fetch throws *)
| SaveRefused (body : option (option string))    (* not ok; error.detail *)
| Saved (body : option Api.MoodLog).             (* response.ok *)

(** What the handlers do besides setting state. *)
Inductive Effect : Type :=
| Get (path : string) (token : string)
| Post (path : string) (token : string)
| Alert (message : string)
| ConsoleError (message : string).

(** The tabs; [patternsTab] is the tab ['patterns']. *)
Inductive Tab : Type := dashboard | tracker | patternsTab | journal.

(** The state of the component. *)
Module Page.

Record state : Type := {
  view : Tab;
  showQuickLog : bool;
  moodEntries : list MoodEntry;
  quickMood : Z;
  quickEnergy : Z;
  quickAnxiety : Z;
  quickSleep : Z;
  quickExercise : bool;
  quickSocial : bool;
  quickMeditation : bool;
  quickNotes : string;
  isLoadingEntries : bool;
  isSaving : bool
}.

(** The state the component is mounted with. *)
Definition initial : state := {|
  view := dashboard;
  showQuickLog := false;
  moodEntries := [];
  quickMood := 5;
  quickEnergy := 5;
  quickAnxiety := 5;
  quickSleep := 5;
  quickExercise := false;
  quickSocial := false;
  quickMeditation := false;
  quickNotes := "";
  isLoadingEntries := true;
  isSaving := false
|}.

Definition setMoodEntries (es : list MoodEntry) (st : state) : state := {|
  view := view st; showQuickLog := showQuickLog st; moodEntries := es;
  quickMood := quickMood st; quickEnergy := quickEnergy st;
  quickAnxiety := quickAnxiety st; quickSleep := quickSleep st;
  quickExercise := quickExercise st; quickSocial := quickSocial st;
  quickMeditation := quickMeditation st; quickNotes := quickNotes st;
  isLoadingEntries := isLoadingEntries st; isSaving := isSaving st
|}.

Definition setShowQuickLog (b : bool) (st : state) : state := {|
  view := view st; showQuickLog := b; moodEntries := moodEntries st;
  quickMood := quickMood st; quickEnergy := quickEnergy st;
  quickAnxiety := quickAnxiety st; quickSleep := quickSleep st;
  quickExercise := quickExercise st; quickSocial := quickSocial st;
  quickMeditation := quickMeditation st; quickNotes := quickNotes st;
  isLoadingEntries := isLoadingEntries st; isSaving := isSaving st
|}.

Definition setQuickNotes (s : string) (st : state) : state := {|
  view := view st; showQuickLog := showQuickLog st;
  moodEntries := moodEntries st;
  quickMood := quickMood st; quickEnergy := quickEnergy st;
  quickAnxiety := quickAnxiety st; quickSleep := quickSleep st;
  quickExercise := quickExercise st; quickSocial := quickSocial st;
  quickMeditation := quickMeditation st; quickNotes := s;
  isLoadingEntries := isLoadingEntries st; isSaving := isSaving st
|}.

Definition setIsLoadingEntries (b : bool) (st : state) : state := {|
  view := view st; showQuickLog := showQuickLog st;
  moodEntries := moodEntries st;
  quickMood := quickMood st; quickEnergy := quickEnergy st;
  quickAnxiety := quickAnxiety st; quickSleep := quickSleep st;
  quickExercise := quickExercise st; quickSocial := quickSocial st;
  quickMeditation := quickMeditation st; quickNotes := quickNotes st;
  isLoadingEntries := b; isSaving := isSaving st
|}.

Definition setIsSaving (b : bool) (st : state) : state := {|
  view := view st; showQuickLog := showQuickLog st;
  moodEntries := moodEntries st;
  quickMood := quickMood st; quickEnergy := quickEnergy st;
  quickAnxiety := quickAnxiety st; quickSleep := quickSleep st;
  quickExercise := quickExercise st; quickSocial := quickSocial st;
  quickMeditation := quickMeditation st; quickNotes := quickNotes st;
  isLoadingEntries := isLoadingEntries st; isSaving := b
|}.

End Page.

(** What the component renders: the spinner while the entries load, the
    empty state for an empty collection, the tabs otherwise. *)
Inductive Screen : Type := LoadingScreen | EmptyScreen | TabScreen (t : Tab).

Definition screen (st : Page.state) : Screen :=
  if Page.isLoadingEntries st then LoadingScreen
  else if (List.length (Page.moodEntries st) =? 0)%nat then EmptyScreen
  else TabScreen (Page.view st).

(** The token [localStorage.getItem('auth_token')] returns, when it passes
    the test [!token]: null ([None]) and the empty string do not. *)
Definition bearer (token : option string) : option string :=
  match token with
  | None => None
  | Some t => if (t =? "")%string then None else Some t
  end.

Section Handlers.

(** [new Date(s).getTime()] on the [created_at] of a log. *)
Variable getTime : string -> Z.

(** [log.notes || ''] *)
Definition notesOr (n : option string) : string :=
  match n with Some s => s | None => "" end.

(** The entry made of a log, in [loadMoodEntries] and in [saveMoodEntry]. *)
Definition toEntry (log : Api.MoodLog) : MoodEntry := {|
  id := Api._id log;
  date := Api.date log;
  timestamp := getTime (Api.created_at log);
  mood := Api.mood log;
  energy := Api.energy log;
  anxiety := Api.anxiety log;
  sleep := Api.sleep log;
  exercise := Api.exercise (Api.activities log);
  social := Api.social (Api.activities log);
  meditation := Api.meditation (Api.activities log);
  notes := notesOr (Api.notes log);
  symptoms := []
|}.

(** [loadMoodEntries], run once when the component is mounted: the state it
    leaves and what it did, given the stored token and what the request
    comes to. *)
Definition loadMoodEntries (token : option string) (outcome : LoadOutcome)
  (st : Page.state) : Page.state * list Effect :=
  match bearer token with
  | None => (Page.setIsLoadingEntries false st, [])
  | Some t =>
      let request := Get "/api/mood-logs?limit=100" t in
      match outcome with
      | Loaded (Some mood_logs) =>
          (Page.setIsLoadingEntries false
             (Page.setMoodEntries (map toEntry mood_logs) st),
           [request])
      | LoadRefused =>
          (Page.setIsLoadingEntries false st, [request])
      | LoadRejected | Loaded None =>
          (Page.setIsLoadingEntries false st,
           [request; ConsoleError "Failed to load mood entries:"])
      end
  end.

(** [saveMoodEntry], the handler of the save button. *)
Definition saveMoodEntry (token : option string) (outcome : SaveOutcome)
  (st : Page.state) : Page.state * list Effect :=
  let st := Page.setIsSaving true st in
  match bearer token with
  | None =>
      (Page.setIsSaving false st, [Alert "Please log in to save mood entries"])
  | Some t =>
      let request := Post "/api/mood-logs" t in
      match outcome with
      | Saved (Some savedLog) =>
          let newEntry := toEntry savedLog in
          (Page.setIsSaving false
             (Page.setQuickNotes ""
                (Page.setShowQuickLog false
                   (Page.setMoodEntries (newEntry :: Page.moodEntries st) st))),
           [request])
      | SaveRefused (Some detail) =>
          (Page.setIsSaving false st,
           [request;
            Alert ("Failed to save mood entry: "
                   ++ match detail with
                      | Some d => if (d =? "")%string then "Unknown error" else d
                      | None => "Unknown error"
                      end)])
      | SaveRejected | SaveRefused None | Saved None =>
          (Page.setIsSaving false st,
           [request;
            ConsoleError "Failed to save mood entry:";
            Alert "Failed to save mood entry. Please try again."])
      end
  end.

End Handlers.

(** The number of distinct calendar days on which the entries were
    created. *)
Definition distinctDays (es : list MoodEntry) : nat :=
  List.length (nodup Z.eq_dec (map (fun e => isoDate (timestamp e)) es)).

(** The point of the trend chart made of an entry. *)
Definition trendPoint (shortDate : Z -> string) (entry : MoodEntry) : Trend.t :=
  {| Trend.date := shortDate (timestamp entry);
     Trend.mood := mood entry;
     Trend.energy := energy entry;
     Trend.anxiety := anxiety entry;
     Trend.sleep := sleep entry |}.

(** The number of moods a grouping holds. *)
Definition groupedMoods (dm : list (Weekday * list Z)) : nat :=
  list_sum (map (fun kv => List.length (snd kv)) dm).



(** A log of the API. *)
Definition sampleLog : Api.MoodLog := {|
  Api._id := "65a";
  Api.date := "2023-11-14";
  Api.created_at := "2023-11-14T22:13:20Z";
  Api.mood := 7;
  Api.energy := 6;
  Api.anxiety := 3;
  Api.sleep := 8;
  Api.activities :=
    {| Api.exercise := true; Api.social := false; Api.meditation := true |};
  Api.notes := None
|}.

(* ================================================================== *)
(** * Doubles *)
(* ================================================================== *)

(** The decimal literals of the page, as the doubles they denote. *)
Lemma decimal_literals :
  (dec 3 10 : float) = 0x1.3333333333333p-2%float
  /\ (dec 2 10 : float) = 0x1.999999999999ap-3%float
  /\ (dec 15 100 : float) = 0x1.3333333333333p-3%float
  /\ (dec 1 10 : float) = 0x1.999999999999ap-4%float
  /\ (dec 5 100 : float) = 0x1.999999999999ap-5%float
  /\ (dec 8 10 : float) = 0x1.999999999999ap-1%float
  /\ (dec 15 10 : float) = 0x1.8p+0%float.
Proof. repeat split. Qed.

(** On the example collections the score computed on doubles is the one
    computed on exact numbers. *)
Lemma scores_of_examples :
  map (fun es => wellnessScore instant es : float) examples
  = map (fun es => ofZ (specScore instant es)) examples.
Proof. vm_compute. reflexivity. Qed.

Lemma utcWeekday_instant : utcWeekday instant = Tuesday.
Proof. reflexivity. Qed.

(** Seven weekdays with a spread of six points give the day pattern of
    the first of the two worst weekdays; three weekdays with the same
    spread give none. *)
Lemma day_pattern_examples :
  map (fun p : Pattern float => (title p, description p, confidence p))
      (patterns utcWeekday fullWeek)
  = [("Tuesdays Are Harder for You"%string,
      "Your mood is 6.0 points lower on Tuesdays compared to Sundays."%string,
      ofZ 75)]
  /\ patterns utcWeekday threeWeekdays = ([] : list (Pattern float)).
Proof. split; vm_compute; reflexivity. Qed.

(* ================================================================== *)
(** * Exact arithmetic *)
(* ================================================================== *)

Module ExactFacts.
Import Exact.

Lemma zq_plus (a b : Z) : (zq a + zq b)%Qc = zq (a + b).
Proof.
  apply Qc_is_canon. unfold zq, Qcplus, Q2Qc; cbn [this].
  rewrite !Qred_correct, inject_Z_plus. reflexivity.
Qed.

Lemma zq_zero : zq 0 = 0%Qc.
Proof. apply Qc_is_canon. reflexivity. Qed.

Lemma sgn_zq (z : Z) : sgn (zq z) = (z ?= 0)%Z.
Proof.
  unfold sgn, zq, Q2Qc; cbn [this].
  rewrite (Qcompare_comp (Qred (inject_Z z)) (inject_Z z) (Qred_correct _) 0%Q 0%Q (Qeq_refl 0%Q)).
  unfold Qcompare, inject_Z; cbn [Qnum Qden]. now rewrite Z.mul_1_r.
Qed.

Lemma isZero_eq (q : Qc) : isZero q = true -> q = 0%Qc.
Proof.
  unfold isZero, sgn. destruct (this q ?= 0%Q)%Q eqn:E; try discriminate.
  intros _. apply Qc_is_canon. now apply Qeq_alt.
Qed.

Lemma add_Fin (p q : Qc) : (Fin p + Fin q)%js = Fin (p + q)%Qc.
Proof. reflexivity. Qed.

Lemma sub_Fin (p q : Qc) : (Fin p - Fin q)%js = Fin (p - q)%Qc.
Proof. reflexivity. Qed.

Lemma mul_Fin (p q : Qc) : (Fin p * Fin q)%js = Fin (p * q)%Qc.
Proof. reflexivity. Qed.

Lemma div_Fin (p q : Qc) :
  isZero q = false -> (Fin p / Fin q)%js = Fin (p / q)%Qc.
Proof. intros E. cbn. unfold Exact.div. now rewrite E. Qed.

Lemma ofZ_Fin (z : Z) : ofZ z = Fin (zq z).
Proof. reflexivity. Qed.

Lemma round_Fin (q : Qc) : round (Fin q) = Fin (zq (roundZ q)).
Proof. reflexivity. Qed.

Lemma orZero_Fin (q : Qc) : orZero (Fin q) = Fin q.
Proof.
  unfold orZero; cbn. destruct (isZero q) eqn:E; cbn; [|reflexivity].
  apply isZero_eq in E. subst q. unfold Exact.ofZ. now rewrite zq_zero.
Qed.

Lemma sumOf_from {A : Type} (f : A -> Z) (xs : list A) (a : Z) :
  fold_left (fun sum e => (sum + ofZ (f e))%js) xs (Fin (zq a))
  = Fin (zq (a + total f xs)).
Proof.
  revert a. induction xs as [|x xs IH]; intros a; cbn [fold_left].
  - unfold total; cbn. now rewrite Z.add_0_r.
  - rewrite ofZ_Fin, add_Fin, zq_plus, IH. unfold total; cbn [map fold_right].
    now rewrite Z.add_assoc.
Qed.

Lemma sumOf_exact {A : Type} (f : A -> Z) (xs : list A) :
  sumOf f xs = Fin (zq (total f xs)).
Proof. unfold sumOf. rewrite ofZ_Fin, sumOf_from. reflexivity. Qed.

Lemma zq_div (a b : Z) :
  (zq a / zq b)%Qc = Q2Qc (inject_Z a / inject_Z b).
Proof.
  apply Qc_is_canon. unfold zq, Qcdiv, Qcmult, Qcinv, Q2Qc; cbn [this].
  rewrite !Qred_correct. reflexivity.
Qed.

(** The mean the page computes, with its [|| 0], is the arithmetic mean
    with mean 0 for the empty list. *)
Lemma mean_exact {A : Type} (f : A -> Z) (xs : list A) :
  orZero (mean f xs) = Fin (meanQ f xs).
Proof.
  unfold mean, len. rewrite sumOf_exact, ofZ_Fin.
  destruct xs as [|x xs].
  - reflexivity.
  - rewrite div_Fin.
    + rewrite orZero_Fin, zq_div. reflexivity.
    + unfold isZero. rewrite sgn_zq. cbn [List.length].
      destruct (Z.of_nat (S (List.length xs)) ?= 0)%Z eqn:E; try reflexivity.
      apply Z.compare_eq in E. lia.
Qed.


Lemma dec_exact (n : Z) (d : positive) :
  dec n (Z.pos d) = Fin (frac n d).
Proof.
  unfold dec. rewrite !ofZ_Fin, div_Fin.
  - f_equal. rewrite zq_div. apply Qc_is_canon. unfold frac, Q2Qc; cbn [this].
    rewrite !Qred_correct. unfold Qeq, Qdiv, Qmult, Qinv, inject_Z; cbn. lia.
  - unfold isZero. now rewrite sgn_zq.
Qed.

End ExactFacts.

(* ================================================================== *)
(** * The streak *)
(* ================================================================== *)

Section StreakFacts.
Variable now : Z.

Lemma DAY_pos : 0 < DAY.
Proof. reflexivity. Qed.

Lemma isoDate_mono (a b : Z) : a <= b -> isoDate a <= isoDate b.
Proof. intros Hab. apply Z.div_le_mono; [exact DAY_pos | exact Hab]. Qed.

Lemma isoDate_back (i : nat) :
  isoDate (now - Z.of_nat i * DAY) = isoDate now - Z.of_nat i.
Proof.
  unfold isoDate.
  replace (now - Z.of_nat i * DAY) with (now + (- Z.of_nat i) * DAY) by ring.
  rewrite Z.div_add by (pose proof DAY_pos; lia). ring.
Qed.

Lemma streakLoop_cons (i : nat) (e : MoodEntry) (rest : list MoodEntry) :
  streakLoop now i (e :: rest)
  = if isoDate (timestamp e) =? isoDate now - Z.of_nat i
    then S (streakLoop now (S i) rest) else O.
Proof. cbn [streakLoop]. now rewrite isoDate_back. Qed.

Lemma streakLoop_miss (i : nat) (e : MoodEntry) (rest : list MoodEntry) :
  isoDate (timestamp e) <> isoDate now - Z.of_nat i ->
  streakLoop now i (e :: rest) = O.
Proof.
  intros Hne. rewrite streakLoop_cons.
  destruct (Z.eqb_spec (isoDate (timestamp e)) (isoDate now - Z.of_nat i));
    [contradiction | reflexivity].
Qed.

Lemma insertDesc_In (e x : MoodEntry) (xs : list MoodEntry) :
  In x (insertDesc e xs) <-> x = e \/ In x xs.
Proof.
  induction xs as [|y ys IH]; cbn [insertDesc].
  - cbn. intuition congruence.
  - destruct (timestamp y <=? timestamp e); cbn [In]; [|rewrite IH];
      intuition congruence.
Qed.

Lemma sortDesc_In (x : MoodEntry) (xs : list MoodEntry) :
  In x (sortDesc xs) <-> In x xs.
Proof.
  induction xs as [|y ys IH]; cbn [sortDesc fold_right]; [reflexivity|].
  fold (sortDesc ys). rewrite insertDesc_In, IH. cbn. intuition congruence.
Qed.

Lemma insertDesc_descending (e : MoodEntry) (xs : list MoodEntry) :
  descending xs -> descending (insertDesc e xs).
Proof.
  unfold descending. induction xs as [|y ys IH]; intros Hs; cbn [insertDesc].
  - repeat constructor.
  - inversion Hs as [|? ? Hys Hall]; subst.
    destruct (Z.leb_spec (timestamp y) (timestamp e)) as [Hle|Hlt].
    + constructor; [exact Hs|]. constructor; [exact Hle|].
      rewrite Forall_forall in *. intros z Hz. specialize (Hall z Hz). lia.
    + constructor; [now apply IH|].
      rewrite Forall_forall in *. intros z Hz.
      apply insertDesc_In in Hz. destruct Hz as [->|Hz]; [lia | now apply Hall].
Qed.

Lemma sortDesc_descending (xs : list MoodEntry) : descending (sortDesc xs).
Proof.
  induction xs as [|y ys IH]; cbn [sortDesc fold_right].
  - constructor.
  - now apply insertDesc_descending.
Qed.





End StreakFacts.

(* ================================================================== *)
(** * The pattern detector *)
(* ================================================================== *)

(** ** The keys of [dayMoods] *)

Lemma Weekday_eqb_eq (a b : Weekday) : Weekday_eqb a b = true <-> a = b.
Proof. destruct a, b; cbn; split; congruence. Qed.

Lemma pushDay_keys (d : Weekday) (m : Z) (dm : list (Weekday * list Z)) :
  (In d (map fst dm) -> map fst (pushDay d m dm) = map fst dm)
  /\ (~ In d (map fst dm) -> map fst (pushDay d m dm) = map fst dm ++ [d]).
Proof.
  induction dm as [|[k moods] rest [IHin IHout]]; cbn [pushDay map fst].
  - split; [intros [] | reflexivity].
  - destruct (Weekday_eqb k d) eqn:E; cbn [map fst In].
    + apply Weekday_eqb_eq in E. subst k. split; [reflexivity | tauto].
    + assert (k <> d) by (intros ->; rewrite (proj2 (Weekday_eqb_eq d d) eq_refl) in E;
                          discriminate).
      split; intros Hd; cbn [app]; f_equal; [apply IHin | apply IHout]; tauto.
Qed.

Lemma pushDay_NoDup (d : Weekday) (m : Z) (dm : list (Weekday * list Z)) :
  NoDup (map fst dm) -> NoDup (map fst (pushDay d m dm)).
Proof.
  intros Hnd. destruct (in_dec Weekday_eq_dec d (map fst dm)) as [Hin|Hout].
  - now rewrite (proj1 (pushDay_keys d m dm) Hin).
  - rewrite (proj2 (pushDay_keys d m dm) Hout).
    apply NoDup_rev in Hnd. rewrite <- (rev_involutive (map fst dm ++ [d])).
    apply NoDup_rev. rewrite rev_app_distr. cbn. constructor; [|exact Hnd].
    now rewrite <- in_rev.
Qed.

Lemma pushDay_In (d k : Weekday) (m : Z) (dm : list (Weekday * list Z)) :
  In k (map fst (pushDay d m dm)) <-> k = d \/ In k (map fst dm).
Proof.
  destruct (in_dec Weekday_eq_dec d (map fst dm)) as [Hin|Hout].
  - rewrite (proj1 (pushDay_keys d m dm) Hin). intuition congruence.
  - rewrite (proj2 (pushDay_keys d m dm) Hout), in_app_iff. cbn.
    intuition congruence.
Qed.

(** What [pushDay] leaves under each key. *)
Lemma pushDay_pairs (d : Weekday) (m : Z) (dm : list (Weekday * list Z))
    (k : Weekday) (moods : list Z) :
  NoDup (map fst dm) ->
  In (k, moods) (pushDay d m dm) ->
  (k <> d /\ In (k, moods) dm)
  \/ (k = d /\ exists old, In (d, old) dm /\ moods = old ++ [m])
  \/ (k = d /\ ~ In d (map fst dm) /\ moods = [m]).
Proof.
  induction dm as [|[k0 old] rest IH]; cbn [pushDay map fst]; intros Hnd Hin.
  - destruct Hin as [E|[]]. inversion E; subst. right. right. cbn. tauto.
  - inversion Hnd as [|? ? Hk0 Hrest]; subst.
    destruct (Weekday_eqb k0 d) eqn:E.
    + apply Weekday_eqb_eq in E. subst k0. destruct Hin as [E|Hin].
      * inversion E; subst. right. left. split; [reflexivity|].
        exists old. split; [now left | reflexivity].
      * left. split; [|now right]. intros ->. apply Hk0.
        apply (in_map fst) in Hin. exact Hin.
    + assert (Hne : k0 <> d).
      { intros ->. rewrite (proj2 (Weekday_eqb_eq d d) eq_refl) in E. discriminate. }
      destruct Hin as [E'|Hin].
      * inversion E'; subst. left. split; [exact Hne | now left].
      * destruct (IH Hrest Hin) as [[Hkd Hin']|[[-> [o [Ho ->]]]|[-> [Hno ->]]]].
        -- left. split; [exact Hkd | now right].
        -- right. left. split; [reflexivity|]. exists o. split; [now right | reflexivity].
        -- right. right. split; [reflexivity|]. split; [|reflexivity].
           cbn. intros [F|F]; [now apply Hne | now apply Hno].
Qed.

Section PatternFacts.
Context {T : Type} `{JSNumber T}.
Variable weekday : Z -> Weekday.

Lemma patterns_short (es : list MoodEntry) :
  (List.length es < 7)%nat -> patterns weekday es = ([] : list (Pattern T)).
Proof.
  intros Hlt. unfold patterns.
  destruct (Nat.ltb_spec (List.length es) 7); [reflexivity | lia].
Qed.

(** With seven entries or more the result lists what the five
    heuristics emit, in the order of their evaluation. *)
Lemma patterns_emitted (es : list MoodEntry) :
  (7 <= List.length es)%nat ->
  patterns weekday es
  = emitted (exercisePattern es) ++ emitted (socialPattern es)
    ++ emitted (sleepPattern es) ++ emitted (dayPattern weekday es)
    ++ emitted (meditationPattern es).
Proof.
  intros Hle. unfold patterns.
  destruct (Nat.ltb_spec (List.length es) 7); [lia|].
  destruct (exercisePattern es), (socialPattern es), (sleepPattern es),
    (dayPattern weekday es), (meditationPattern es); reflexivity.
Qed.

Lemma exercisePattern_icon (es : list MoodEntry) (p : Pattern T) :
  exercisePattern es = Some p -> icon p = Dumbbell.
Proof.
  unfold exercisePattern.
  repeat match goal with |- context [if ?c then _ else _] => destruct c end;
    intros E; inversion E; reflexivity.
Qed.

Lemma socialPattern_icon (es : list MoodEntry) (p : Pattern T) :
  socialPattern es = Some p -> icon p = Users.
Proof.
  unfold socialPattern.
  repeat match goal with |- context [if ?c then _ else _] => destruct c end;
    intros E; inversion E; reflexivity.
Qed.

Lemma sleepPattern_icon (es : list MoodEntry) (p : Pattern T) :
  sleepPattern es = Some p -> icon p = Moon.
Proof.
  unfold sleepPattern.
  repeat match goal with |- context [if ?c then _ else _] => destruct c end;
    intros E; inversion E; reflexivity.
Qed.

Lemma dayPattern_icon (es : list MoodEntry) (p : Pattern T) :
  dayPattern weekday es = Some p -> icon p = Calendar /\ type p = day.
Proof.
  unfold dayPattern.
  destruct (bestDay weekday es), (worstDay weekday es); try discriminate.
  repeat match goal with |- context [if ?c then _ else _] => destruct c end;
    intros E; inversion E; split; reflexivity.
Qed.

Lemma meditationPattern_icon (es : list MoodEntry) (p : Pattern T) :
  meditationPattern es = Some p -> icon p = Brain.
Proof.
  unfold meditationPattern.
  repeat match goal with |- context [if ?c then _ else _] => destruct c end;
    intros E; inversion E; reflexivity.
Qed.


(** Membership in the result, heuristic by heuristic. *)
Lemma patterns_In (es : list MoodEntry) (p : Pattern T) :
  (7 <= List.length es)%nat ->
  (In p (patterns weekday es) <->
   exercisePattern es = Some p \/ socialPattern es = Some p
   \/ sleepPattern es = Some p \/ dayPattern weekday es = Some p
   \/ meditationPattern es = Some p).
Proof.
  intros Hle. rewrite (patterns_emitted es Hle), !in_app_iff.
  assert (Hem : forall o : option (Pattern T), In p (emitted o) <-> o = Some p).
  { intros [q|]; cbn; [|intuition discriminate].
    split; [intros [->|[]]; reflexivity | intros E; inversion E; now left]. }
  rewrite !Hem. tauto.
Qed.

Lemma dayMoods_keys (es : list MoodEntry) (acc : list (Weekday * list Z)) :
  NoDup (map fst acc) ->
  let dm := fold_left
              (fun acc entry => pushDay (weekday (timestamp entry)) (mood entry) acc)
              es acc in
  NoDup (map fst dm)
  /\ forall k, In k (map fst dm)
               <-> In k (map fst acc)
                   \/ In k (map (fun e => weekday (timestamp e)) es).
Proof.
  revert acc. induction es as [|e es IH]; intros acc Hnd; cbn [fold_left map In].
  - split; [exact Hnd | tauto].
  - destruct (IH (pushDay (weekday (timestamp e)) (mood e) acc)
                (pushDay_NoDup _ _ _ Hnd)) as [Hnd' Hin'].
    split; [exact Hnd'|]. intros k. rewrite Hin', pushDay_In. intuition congruence.
Qed.

(** [dayAverages] has one element per weekday represented. *)
Lemma dayAverages_length (es : list MoodEntry) :
  List.length (dayAverages weekday es : list (Weekday * T))
  = distinctWeekdays weekday es.
Proof.
  unfold dayAverages, distinctWeekdays, dayMoods. rewrite length_map.
  destruct (dayMoods_keys es [] (NoDup_nil _)) as [Hnd Hin].
  rewrite <- (length_map fst). apply Permutation_length, NoDup_Permutation.
  - exact Hnd.
  - apply NoDup_nodup.
  - intros k. rewrite Hin, nodup_In. cbn. tauto.
Qed.

End PatternFacts.

(* ================================================================== *)
(** * The statistics *)
(* ================================================================== *)

Section StatsFacts.
Context {T : Type} `{JSNumber T}.
Variable now : Z.






(** The mean of an empty list is the quotient [0/0]. *)
Lemma mean_nil {A : Type} (f : A -> Z) :
  (mean f [] : T) = (ofZ 0 / ofZ 0)%js.
Proof. reflexivity. Qed.

(** Where [0/0] is falsy, the averages of an empty week are 0. *)
Lemma averages_of_empty_week (es : list MoodEntry) :
  truthy (ofZ 0 / ofZ 0 : T)%js = false ->
  last7Days now es = [] ->
  avgMood now es = (ofZ 0 : T) /\ avgEnergy now es = (ofZ 0 : T)
  /\ avgAnxiety now es = (ofZ 0 : T) /\ avgSleep now es = (ofZ 0 : T).
Proof.
  intros Hnan Hempty. unfold avgMood, avgEnergy, avgAnxiety, avgSleep.
  rewrite Hempty, !mean_nil. unfold orZero. rewrite Hnan. repeat split.
Qed.



End StatsFacts.

Section ExactStats.
Import Exact ExactFacts.
Variable now : Z.

Lemma avgMood_exact (es : list MoodEntry) :
  avgMood now es = Fin (meanQ mood (week now es)).
Proof. apply mean_exact. Qed.

Lemma avgEnergy_exact (es : list MoodEntry) :
  avgEnergy now es = Fin (meanQ energy (week now es)).
Proof. apply mean_exact. Qed.

Lemma avgAnxiety_exact (es : list MoodEntry) :
  avgAnxiety now es = Fin (meanQ anxiety (week now es)).
Proof. apply mean_exact. Qed.

Lemma avgSleep_exact (es : list MoodEntry) :
  avgSleep now es = Fin (meanQ sleep (week now es)).
Proof. apply mean_exact. Qed.

Lemma seven_nonzero : isZero (zq 7) = false.
Proof. reflexivity. Qed.

(** The score of the page is the score of the specification. *)
Lemma wellnessScore_exact (es : list MoodEntry) :
  wellnessScore now es = Fin (zq (specScore now es)).
Proof.
  unfold wellnessScore, specScore, count, exerciseCount, socialCount, countOf.
  rewrite avgMood_exact, avgEnergy_exact, avgAnxiety_exact, avgSleep_exact.
  change (last7Days now es) with (week now es).
  rewrite !dec_exact, !ofZ_Fin, !(div_Fin _ _ seven_nonzero).
  rewrite !mul_Fin, sub_Fin, !mul_Fin, !add_Fin, mul_Fin, round_Fin.
  reflexivity.
Qed.


End ExactStats.

(* ================================================================== *)
(** * The groups of the day-of-week heuristic *)
(* ================================================================== *)

Section GroupFacts.
Variable weekday : Z -> Weekday.

Lemma onWeekday_app (d : Weekday) (xs ys : list MoodEntry) :
  onWeekday weekday d (xs ++ ys) = onWeekday weekday d xs ++ onWeekday weekday d ys.
Proof. apply filter_app. Qed.

Lemma onWeekday_single (d : Weekday) (e : MoodEntry) :
  onWeekday weekday d [e]
  = if Weekday_eqb (weekday (timestamp e)) d then [e] else [].
Proof. reflexivity. Qed.

Lemma onWeekday_none (d : Weekday) (xs : list MoodEntry) :
  ~ represented weekday xs d -> onWeekday weekday d xs = [].
Proof.
  unfold represented, onWeekday. induction xs as [|x xs IH]; cbn; [reflexivity|].
  intros Hno. destruct (Weekday_eqb (weekday (timestamp x)) d) eqn:E.
  - apply Weekday_eqb_eq in E. tauto.
  - apply IH. tauto.
Qed.

Lemma onWeekday_some (d : Weekday) (xs : list MoodEntry) :
  represented weekday xs d -> onWeekday weekday d xs <> [].
Proof.
  unfold represented, onWeekday. rewrite in_map_iff. intros [e [Hd He]] Hnil.
  assert (Hin : In e (filter (fun e => Weekday_eqb (weekday (timestamp e)) d) xs)).
  { apply filter_In. split; [exact He|]. now apply Weekday_eqb_eq. }
  rewrite Hnil in Hin. destruct Hin.
Qed.

(** After the entries [done], each key of [dayMoods] holds the moods of
    the entries of its weekday, in their order. *)
Lemma dayMoods_groups (es done : list MoodEntry) (acc : list (Weekday * list Z)) :
  NoDup (map fst acc) ->
  (forall k, In k (map fst acc) <-> represented weekday done k) ->
  (forall k moods, In (k, moods) acc ->
                   moods = map mood (onWeekday weekday k done)) ->
  forall k moods,
    In (k, moods)
       (fold_left
          (fun acc entry => pushDay (weekday (timestamp entry)) (mood entry) acc)
          es acc) ->
    moods = map mood (onWeekday weekday k (done ++ es)).
Proof.
  revert done acc. induction es as [|e es IH]; intros done acc Hnd Hkeys Hgr k moods;
    cbn [fold_left].
  - rewrite app_nil_r. apply Hgr.
  - replace (done ++ e :: es) with ((done ++ [e]) ++ es)
      by (rewrite <- app_assoc; reflexivity).
    apply IH.
    + now apply pushDay_NoDup.
    + intros k'. rewrite pushDay_In, Hkeys. unfold represented.
      rewrite map_app, in_app_iff. cbn. intuition congruence.
    + intros k' moods' Hin. rewrite onWeekday_app, map_app.
      destruct (pushDay_pairs _ _ _ _ _ Hnd Hin)
        as [[Hne Hin']|[[-> [o [Ho ->]]]|[-> [Hno ->]]]].
      * rewrite (Hgr _ _ Hin'), onWeekday_single.
        destruct (Weekday_eqb (weekday (timestamp e)) k') eqn:E.
        -- apply Weekday_eqb_eq in E. congruence.
        -- cbn [map]. now rewrite app_nil_r.
      * rewrite (Hgr _ _ Ho), onWeekday_single.
        now rewrite (proj2 (Weekday_eqb_eq _ _) eq_refl).
      * rewrite onWeekday_none by (now rewrite <- Hkeys).
        rewrite onWeekday_single.
        now rewrite (proj2 (Weekday_eqb_eq _ _) eq_refl).
Qed.

Lemma dayMoods_In (es : list MoodEntry) (k : Weekday) (moods : list Z) :
  In (k, moods) (dayMoods weekday es) ->
  represented weekday es k /\ moods = map mood (onWeekday weekday k es).
Proof.
  intros Hin. split.
  - destruct (dayMoods_keys weekday es [] (NoDup_nil _)) as [_ Hkeys].
    unfold represented. apply (in_map fst) in Hin. apply Hkeys in Hin.
    destruct Hin as [[]|Hin]. exact Hin.
  - apply (dayMoods_groups es [] []); [constructor | | | exact Hin].
    + intros k'. unfold represented. cbn. tauto.
    + intros k' moods' [].
Qed.


End GroupFacts.

Section ExactPatterns.
Import Exact ExactFacts.
Variable weekday : Z -> Weekday.









End ExactPatterns.

(* ================================================================== *)
(** * The exercise and the day-of-week heuristics *)
(* ================================================================== *)

Section HeuristicFacts.
Context {T : Type} `{JSNumber T}.
Variable weekday : Z -> Weekday.






End HeuristicFacts.

Section ExactHeuristics.
Variable weekday : Z -> Weekday.





End ExactHeuristics.

(* ================================================================== *)
(** * The streak does not depend on the order of the collection *)
(* ================================================================== *)

Lemma insertDesc_Permutation (e : MoodEntry) (xs : list MoodEntry) :
  Permutation (insertDesc e xs) (e :: xs).
Proof.
  induction xs as [|x xs IH]; cbn [insertDesc]; [reflexivity|].
  destruct (timestamp x <=? timestamp e); [reflexivity|].
  rewrite IH. apply perm_swap.
Qed.

Lemma sortDesc_Permutation (xs : list MoodEntry) : Permutation (sortDesc xs) xs.
Proof.
  induction xs as [|x xs IH]; cbn [sortDesc fold_right]; [reflexivity|].
  fold (sortDesc xs). rewrite insertDesc_Permutation. now constructor.
Qed.

Lemma descending_timestamps (xs : list MoodEntry) :
  descending xs -> StronglySorted (fun a b => b <= a) (map timestamp xs).
Proof.
  unfold descending. induction 1 as [|x xs Hs IH Hall]; cbn [map]; constructor.
  - exact IH.
  - rewrite Forall_forall in *. intros t Ht. apply in_map_iff in Ht.
    destruct Ht as [y [<- Hy]]. now apply Hall.
Qed.

(** A list of integers has one decreasing arrangement. *)
Lemma decreasing_unique (xs ys : list Z) :
  StronglySorted (fun a b => b <= a) xs ->
  StronglySorted (fun a b => b <= a) ys ->
  Permutation xs ys -> xs = ys.
Proof.
  intros Hxs. revert ys. induction Hxs as [|x xs Hs IH Hall]; intros ys Hys Hperm.
  - apply Permutation_nil in Hperm. now subst.
  - destruct Hys as [|y ys Hys' Hally].
    + apply Permutation_sym, Permutation_nil in Hperm. discriminate.
    + rewrite Forall_forall in Hall, Hally.
      assert (Hxy : x = y).
      { assert (Hx : In x (y :: ys))
          by (apply (Permutation_in _ Hperm); now left).
        assert (Hy : In y (x :: xs))
          by (apply (Permutation_in _ (Permutation_sym Hperm)); now left).
        destruct Hx as [->|Hx]; [reflexivity|].
        destruct Hy as [->|Hy]; [reflexivity|].
        specialize (Hall y Hy). specialize (Hally x Hx). lia. }
      subst y. f_equal. apply IH; [exact Hys'|].
      now apply Permutation_cons_inv with x.
Qed.

Lemma streakLoop_timestamps (now : Z) (i : nat) (xs ys : list MoodEntry) :
  map timestamp xs = map timestamp ys ->
  streakLoop now i xs = streakLoop now i ys.
Proof.
  revert i ys. induction xs as [|x xs IH]; intros i [|y ys] E; try discriminate.
  - reflexivity.
  - cbn [map] in E. injection E as Ex Exs. cbn [streakLoop].
    rewrite Ex, (IH (S i) ys Exs). reflexivity.
Qed.

(** The streak of a collection is that of any rearrangement of it. *)
Lemma currentStreak_Permutation (now : Z) (es es' : list MoodEntry) :
  Permutation es es' -> currentStreak now es = currentStreak now es'.
Proof.
  intros Hperm. unfold currentStreak. apply streakLoop_timestamps.
  apply decreasing_unique.
  - apply descending_timestamps, sortDesc_descending.
  - apply descending_timestamps, sortDesc_descending.
  - apply Permutation_map.
    rewrite (sortDesc_Permutation es), (sortDesc_Permutation es'). exact Hperm.
Qed.

(* ================================================================== *)
(** * The range of the wellness score *)
(* ================================================================== *)

Lemma this_plus (x y : Qc) : (this (x + y)%Qc == this x + this y)%Q.
Proof. unfold Qcplus, Q2Qc; cbn [this]. apply Qred_correct. Qed.

Lemma this_minus (x y : Qc) : (this (x - y)%Qc == this x - this y)%Q.
Proof.
  unfold Qcminus, Qcopp. rewrite this_plus. unfold Q2Qc; cbn [this].
  rewrite Qred_correct. reflexivity.
Qed.

Lemma this_mult (x y : Qc) : (this (x * y)%Qc == this x * this y)%Q.
Proof. unfold Qcmult, Q2Qc; cbn [this]. apply Qred_correct. Qed.

Lemma this_zq (z : Z) : (this (Exact.zq z) == inject_Z z)%Q.
Proof. unfold Exact.zq, Q2Qc; cbn [this]. apply Qred_correct. Qed.

Lemma this_frac (n : Z) (d : positive) : (this (frac n d) == n # d)%Q.
Proof. unfold frac, Q2Qc; cbn [this]. apply Qred_correct. Qed.

Lemma this_div (x y : Qc) : (this (x / y)%Qc == this x / this y)%Q.
Proof.
  unfold Qcdiv, Qcinv. rewrite this_mult. unfold Q2Qc; cbn [this].
  rewrite Qred_correct. reflexivity.
Qed.

Lemma total_bounds {A : Type} (f : A -> Z) (xs : list A) :
  (forall x, In x xs -> inScale (f x)) ->
  0 <= total f xs <= 10 * Z.of_nat (List.length xs).
Proof.
  unfold total, inScale. induction xs as [|x xs IH]; intros Hall; cbn [map fold_right List.length].
  - lia.
  - assert (0 <= f x <= 10) by (apply Hall; now left).
    assert (0 <= fold_right Z.add 0 (map f xs) <= 10 * Z.of_nat (List.length xs))
      by (apply IH; intros y Hy; apply Hall; now right).
    lia.
Qed.

(** The mean of scores in the scale is in the scale. *)
Lemma meanQ_bounds {A : Type} (f : A -> Z) (xs : list A) :
  (forall x, In x xs -> inScale (f x)) ->
  (0 <= this (meanQ f xs) <= 10)%Q.
Proof.
  intros Hall. pose proof (total_bounds f xs Hall) as Ht.
  destruct xs as [|x xs]; [cbn; lra|].
  unfold meanQ, Q2Qc; cbn [this]. rewrite Qred_correct.
  set (n := Z.of_nat (List.length (x :: xs))) in *.
  assert (Hn : 0 < n) by (subst n; cbn [List.length]; lia).
  assert (Hnq : (0 < inject_Z n)%Q) by (change 0%Q with (inject_Z 0); rewrite <- Zlt_Qlt; exact Hn).
  split.
  - apply Qle_shift_div_l; [exact Hnq|]. rewrite Qmult_0_l.
    change 0%Q with (inject_Z 0). rewrite <- Zle_Qle. lia.
  - apply Qle_shift_div_r; [exact Hnq|].
    change 10%Q with (inject_Z 10). rewrite <- inject_Z_mult, <- Zle_Qle. lia.
Qed.

(** With scores in the scale, and no more than seven entries of the week
    with exercise nor with social contact, the score of the specification
    is in [0,100]. *)
Lemma specScore_range (now : Z) (es : list MoodEntry) :
  Forall validEntry es ->
  countOf exercise (week now es) <= 7 ->
  countOf social (week now es) <= 7 ->
  0 <= specScore now es <= 100.
Proof.
  intros Hvalid Hex Hso. unfold specScore, Exact.roundZ.
  assert (Hw : forall e, In e (week now es) -> validEntry e).
  { intros e He. unfold week in He. apply filter_In in He.
    rewrite Forall_forall in Hvalid. now apply Hvalid. }
  pose proof (meanQ_bounds mood (week now es) (fun e He => proj1 (Hw e He))) as Hm.
  pose proof (meanQ_bounds energy (week now es)
                (fun e He => proj1 (proj2 (Hw e He)))) as Hg.
  pose proof (meanQ_bounds anxiety (week now es)
                (fun e He => proj1 (proj2 (proj2 (Hw e He))))) as Ha.
  pose proof (meanQ_bounds sleep (week now es)
                (fun e He => proj2 (proj2 (proj2 (Hw e He))))) as Hs.
  assert (Hexq : (0 <= inject_Z (countOf exercise (week now es)) <= 7)%Q).
  { change 0%Q with (inject_Z 0). change 7%Q with (inject_Z 7).
    rewrite <- !Zle_Qle. unfold countOf in *. lia. }
  assert (Hsoq : (0 <= inject_Z (countOf social (week now es)) <= 7)%Q).
  { change 0%Q with (inject_Z 0). change 7%Q with (inject_Z 7).
    rewrite <- !Zle_Qle. unfold countOf in *. lia. }
  match goal with |- 0 <= Qfloor (this ?X + _)%Q <= 100 => set (score := X) end.
  assert (Hscore : (0 <= this score <= 100)%Q).
  { subst score.
    rewrite this_mult, !this_plus, !this_mult, this_minus, !this_div,
      !this_frac, !this_zq.
    set (m := this (meanQ mood (week now es))) in *.
    set (g := this (meanQ energy (week now es))) in *.
    set (a := this (meanQ anxiety (week now es))) in *.
    set (s := this (meanQ sleep (week now es))) in *.
    set (x := inject_Z (countOf exercise (week now es))) in *.
    set (y := inject_Z (countOf social (week now es))) in *.
    change (inject_Z 10) with 10%Q. change (inject_Z 7) with 7%Q.
    clearbody m g a s x y. unfold Qdiv. change (/ 7)%Q with (1 # 7)%Q.
    split; lra. }
  split.
  - change 0 with (Qfloor (0 + (1 # 2))%Q). apply Qfloor_resp_le. lra.
  - change 100 with (Qfloor (100 + (1 # 2))%Q). apply Qfloor_resp_le. lra.
Qed.


(** The same of the score the page computes. *)
Lemma wellnessScore_range (now : Z) (es : list MoodEntry) :
  Forall validEntry es ->
  (exerciseCount now es <= 7)%nat ->
  (socialCount now es <= 7)%nat ->
  exists z : Z,
    wellnessScore now es = (ofZ z : Exact.num) /\ 0 <= z <= 100.
Proof.
  intros Hvalid Hex Hso. exists (specScore now es). split.
  - apply wellnessScore_exact.
  - apply specScore_range; [exact Hvalid | |];
      unfold countOf, exerciseCount, socialCount, last7Days, week in *; lia.
Qed.

(* ================================================================== *)
(** * The properties *)
(* ================================================================== *)

(** C1 (the page at a collection that breaks the range).  Eight valid
    entries of one day, each with exercise and social contact: the
    wellness score is 102, on doubles and on exact numbers alike. *)
Theorem wellnessScore_busyWeek :
  Forall validEntry busyWeek
  /\ (wellnessScore instant busyWeek : float) = ofZ 102
  /\ integerValue (wellnessScore instant busyWeek) = Some 102.
Proof.
  split; [|split; vm_compute; reflexivity].
  unfold busyWeek. repeat constructor; cbn; lia.
Qed.









(** C5. A collection of fewer than seven entries yields the empty list of
    patterns, whatever its entries hold; the result is a value, not a
    failure. *)
Theorem patterns_below_seven_entries {T : Type} `{JSNumber T}
    (weekday : Z -> Weekday) (es : list MoodEntry) :
  (List.length es < 7)%nat -> patterns weekday es = ([] : list (Pattern T)).
Proof. apply patterns_short. Qed.

Lemma patterns_below_seven_entries_witness :
  (List.length fewEntries < 7)%nat
  /\ patterns utcWeekday fewEntries = ([] : list (Pattern float)).
Proof.
  split; [cbn; lia | apply patterns_below_seven_entries; cbn; lia].
Defined.

(** C6. For the empty collection, at every instant, [stats] returns null
    (no snapshot, the streak loop having nothing to count), [patterns]
    returns the empty list and [moodTrendData] is empty. *)
Theorem empty_collection {T : Type} `{JSNumber T}
    (weekday : Z -> Weekday) (shortDate : Z -> string) (now : Z) :
  stats now [] = (None : option (Snapshot.t T))
  /\ currentStreak now [] = O
  /\ patterns weekday [] = ([] : list (Pattern T))
  /\ moodTrendData shortDate [] = [].
Proof. repeat split. Qed.








(** C10. The patterns come in the order in which the heuristics are
    evaluated (exercise, social, sleep, day of week, meditation), each
    heuristic contributing at most one pattern, hence at most five in
    all; the list is not sorted by confidence, as the collection
    [calmDays] shows, whose confidences come out as 30 then 85. *)
Theorem patterns_in_evaluation_order {T : Type} `{JSNumber T}
    (weekday : Z -> Weekday) (es : list MoodEntry) :
  patterns weekday es
  = (if (List.length es <? 7)%nat then []
     else emitted (exercisePattern es) ++ emitted (socialPattern es)
          ++ emitted (sleepPattern es) ++ emitted (dayPattern weekday es)
          ++ emitted (meditationPattern es))
  /\ subsequence (map (@icon T) (patterns weekday es)) heuristics
  /\ NoDup (map (@icon T) (patterns weekday es))
  /\ (List.length (patterns weekday es) <= 5)%nat
  /\ map (@confidence float) (patterns utcWeekday calmDays) = [ofZ 30; ofZ 85].
Proof.
  assert (Hshape :
    patterns weekday es
    = (if (List.length es <? 7)%nat then []
       else emitted (exercisePattern es) ++ emitted (socialPattern es)
            ++ emitted (sleepPattern es) ++ emitted (dayPattern weekday es)
            ++ emitted (meditationPattern es))).
  { destruct (Nat.ltb_spec (List.length es) 7) as [Hlt|Hge].
    - now apply patterns_short.
    - now apply patterns_emitted. }
  split; [exact Hshape|].
  assert (Hsub : subsequence (map (@icon T) (patterns weekday es)) heuristics).
  { rewrite Hshape. unfold heuristics.
    destruct (List.length es <? 7)%nat; [cbn; repeat constructor|].
    destruct (exercisePattern es) as [p1|] eqn:E1;
      [apply exercisePattern_icon in E1|];
    (destruct (socialPattern es) as [p2|] eqn:E2;
      [apply socialPattern_icon in E2|]);
    (destruct (sleepPattern es) as [p3|] eqn:E3;
      [apply sleepPattern_icon in E3|]);
    (destruct (dayPattern weekday es) as [p4|] eqn:E4;
      [apply dayPattern_icon in E4; destruct E4 as [E4 _]|]);
    (destruct (meditationPattern es) as [p5|] eqn:E5;
      [apply meditationPattern_icon in E5|]);
    cbn [emitted app map];
    repeat match goal with E : icon _ = _ |- _ => rewrite E; clear E end;
    repeat first [apply subsequence_keep | apply subsequence_skip
                 | apply subsequence_nil]. }
  split; [exact Hsub|].
  split.
  - revert Hsub. generalize (map (@icon T) (patterns weekday es)).
    assert (Hnd : NoDup heuristics)
      by (unfold heuristics; repeat constructor; cbn; intuition discriminate).
    revert Hnd. generalize heuristics. intros ys Hnd xs Hsub.
    induction Hsub as [|y xs ys Hsub IH|y xs ys Hsub IH].
    + constructor.
    + inversion Hnd; subst. now apply IH.
    + inversion Hnd as [|? ? Hy Hys]; subst. constructor; [|now apply IH].
      intros Hin. apply Hy. clear - Hsub Hin.
      induction Hsub; cbn in *; intuition.
  - split; [|vm_compute; reflexivity].
    rewrite <- (length_map (@icon T)). revert Hsub.
    generalize (map (@icon T) (patterns weekday es)).
    change 5%nat with (List.length heuristics). generalize heuristics.
    intros ys xs Hsub. induction Hsub; cbn; lia.
Qed.

(* ================================================================== *)
(** * Further properties of the pattern detector *)
(* ================================================================== *)

Section IconFacts.
Context {T : Type} `{JSNumber T}.
Variable weekday : Z -> Weekday.

(** The icon of an emitted pattern tells the heuristic it comes from. *)
Lemma pattern_by_icon (es : list MoodEntry) (p : Pattern T) :
  (7 <= List.length es)%nat ->
  In p (patterns weekday es) ->
  match icon p with
  | Dumbbell => exercisePattern es = Some p
  | Users => socialPattern es = Some p
  | Moon => sleepPattern es = Some p
  | Calendar => dayPattern weekday es = Some p
  | Brain => meditationPattern es = Some p
  end.
Proof.
  intros Hlen Hin. apply (patterns_In weekday es p Hlen) in Hin.
  destruct Hin as [E|[E|[E|[E|E]]]].
  - now rewrite (exercisePattern_icon es p E).
  - now rewrite (socialPattern_icon es p E).
  - now rewrite (sleepPattern_icon es p E).
  - now rewrite (proj1 (dayPattern_icon weekday es p E)).
  - now rewrite (meditationPattern_icon es p E).
Qed.

Lemma socialPattern_when (es : list MoodEntry) :
  let diff := (mean mood (filter social es)
               - mean mood (filter (fun e => negb (social e)) es))%js in
  socialPattern es
  = if (3 <? List.length (filter social es))%nat
       && (3 <? List.length (filter (fun e => negb (social e)) es))%nat
       && (diff > dec 8 10)%js
    then Some {|
      type := booster;
      title := "Social Connection Helps";
      description :=
        "You feel " ++ toFixed1 diff ++ " points better after social interaction.";
      confidence := min (ofZ 90) (round (diff * ofZ 12)%js);
      icon := Users |}
    else (None : option (Pattern T)).
Proof.
  cbv zeta. unfold socialPattern.
  destruct ((3 <? List.length (filter social es))%nat
            && (3 <? List.length (filter (fun e => negb (social e)) es))%nat);
    reflexivity.
Qed.

Lemma sleepPattern_when (es : list MoodEntry) :
  let diff := (mean mood (filter (fun e => (sleep e >=? 7)%Z) es)
               - mean mood (filter (fun e => (sleep e <? 5)%Z) es))%js in
  sleepPattern es
  = if (2 <? List.length (filter (fun e => (sleep e >=? 7)%Z) es))%nat
       && (2 <? List.length (filter (fun e => (sleep e <? 5)%Z) es))%nat
       && (diff > ofZ 1)%js
    then Some {|
      type := trigger;
      title := "Poor Sleep Affects Your Mood";
      description :=
        "Your mood drops " ++ toFixed1 diff ++ " points after poor sleep.";
      confidence := min (ofZ 95) (round (diff * ofZ 15)%js);
      icon := Moon |}
    else (None : option (Pattern T)).
Proof.
  cbv zeta. unfold sleepPattern.
  destruct ((2 <? List.length (filter (fun e => (sleep e >=? 7)%Z) es))%nat
            && (2 <? List.length (filter (fun e => (sleep e <? 5)%Z) es))%nat);
    reflexivity.
Qed.

Lemma meditationPattern_when (es : list MoodEntry) :
  let diff := (mean anxiety es - mean anxiety (filter meditation es))%js in
  meditationPattern es
  = if (3 <? List.length (filter meditation es))%nat && (diff > ofZ 1)%js
    then Some {|
      type := booster;
      title := "Meditation Reduces Anxiety";
      description :=
        "Your anxiety is " ++ toFixed1 diff
        ++ " points lower on days you meditate.";
      confidence := ofZ 85;
      icon := Brain |}
    else (None : option (Pattern T)).
Proof.
  cbv zeta. unfold meditationPattern.
  destruct (3 <? List.length (filter meditation es))%nat; reflexivity.
Qed.


End IconFacts.

Section ExactDifferences.






(** Rounding is monotone. *)
Lemma roundZ_le (p q : Qc) : (p <= q)%Qc -> Exact.roundZ p <= Exact.roundZ q.
Proof.
  intros Hle. unfold Exact.roundZ. apply Qfloor_resp_le.
  unfold Qcle in Hle. lra.
Qed.


End ExactDifferences.

(* ================================================================== *)
(** * Properties of the remaining heuristics *)
(* ================================================================== *)







Section SampleFacts.
Context {T : Type} `{JSNumber T}.
Variable weekday : Z -> Weekday.

Lemma exercisePattern_cases (es : list MoodEntry) :
  let diff := (mean mood (filter exercise es)
               - mean mood (filter (fun e => negb (exercise e)) es))%js in
  exercisePattern es
  = if (3 <? List.length (filter exercise es))%nat
       && (3 <? List.length (filter (fun e => negb (exercise e)) es))%nat
       && (diff > ofZ 1)%js
    then Some {|
      type := booster;
      title := "Exercise Boosts Your Mood";
      description :=
        "Your mood is " ++ toFixed1 diff ++ " points higher on days you exercise.";
      confidence := min (ofZ 95) (round (diff * ofZ 15)%js);
      icon := Dumbbell |}
    else (None : option (Pattern T)).
Proof.
  cbv zeta. unfold exercisePattern.
  destruct ((3 <? List.length (filter exercise es))%nat
            && (3 <? List.length (filter (fun e => negb (exercise e)) es))%nat);
    reflexivity.
Qed.

Lemma dayPattern_weekdays (es : list MoodEntry) (p : Pattern T) :
  dayPattern weekday es = Some p ->
  (5 <= distinctWeekdays weekday es)%nat.
Proof.
  unfold dayPattern.
  destruct (bestDay weekday es), (worstDay weekday es); try discriminate.
  rewrite dayAverages_length.
  destruct (Nat.leb_spec 5 (distinctWeekdays weekday es)); [lia|].
  discriminate.
Qed.

End SampleFacts.

Lemma patterns_long {T : Type} `{JSNumber T}
    (weekday : Z -> Weekday) (es : list MoodEntry) (p : Pattern T) :
  In p (patterns weekday es) -> (7 <= List.length es)%nat.
Proof.
  intros Hin.
  destruct (Nat.lt_ge_cases (List.length es) 7) as [Hlt|Hge]; [|exact Hge].
  rewrite (patterns_short weekday es Hlt) in Hin. destruct Hin.
Qed.

Lemma sample_sizes {T : Type} `{JSNumber T}
    (weekday : Z -> Weekday) (es : list MoodEntry) (p : Pattern T) :
  In p (patterns weekday es) ->
  match icon p with
  | Dumbbell =>
      (3 < List.length (filter exercise es))%nat
      /\ (3 < List.length (filter (fun e => negb (exercise e)) es))%nat
  | Users =>
      (3 < List.length (filter social es))%nat
      /\ (3 < List.length (filter (fun e => negb (social e)) es))%nat
  | Moon =>
      (2 < List.length (filter (fun e => (sleep e >=? 7)%Z) es))%nat
      /\ (2 < List.length (filter (fun e => (sleep e <? 5)%Z) es))%nat
  | Calendar => (5 <= distinctWeekdays weekday es)%nat
  | Brain => (3 < List.length (filter meditation es))%nat
  end.
Proof.
  intros Hin.
  pose proof (pattern_by_icon weekday es p (patterns_long weekday es p Hin) Hin)
    as Hp.
  destruct (icon p).
  - rewrite exercisePattern_cases in Hp.
    match type of Hp with (if ?c then _ else _) = _ =>
      destruct c eqn:E; [|discriminate] end.
    rewrite !andb_true_iff, !Nat.ltb_lt in E. tauto.
  - rewrite socialPattern_when in Hp.
    match type of Hp with (if ?c then _ else _) = _ =>
      destruct c eqn:E; [|discriminate] end.
    rewrite !andb_true_iff, !Nat.ltb_lt in E. tauto.
  - rewrite sleepPattern_when in Hp.
    match type of Hp with (if ?c then _ else _) = _ =>
      destruct c eqn:E; [|discriminate] end.
    rewrite !andb_true_iff, !Nat.ltb_lt in E. tauto.
  - now apply (dayPattern_weekdays weekday es p).
  - rewrite meditationPattern_when in Hp.
    match type of Hp with (if ?c then _ else _) = _ =>
      destruct c eqn:E; [|discriminate] end.
    rewrite !andb_true_iff, !Nat.ltb_lt in E. tauto.
Qed.

(** X4. No pattern is emitted on too small a sample: an emitted pattern
    means at least seven entries in all and, for the exercise and the
    social pattern, more than three entries with and more than three
    without the activity; for the sleep pattern, more than two entries
    with sleep of 7 or more and more than two with sleep below 5; for the
    day pattern, five distinct weekdays or more; for the meditation
    pattern, more than three entries with meditation. *)
Theorem patterns_need_samples {T : Type} `{JSNumber T}
    (weekday : Z -> Weekday) (es : list MoodEntry) (p : Pattern T) :
  In p (patterns weekday es) ->
  (7 <= List.length es)%nat
  /\ match icon p with
     | Dumbbell =>
         (3 < List.length (filter exercise es))%nat
         /\ (3 < List.length (filter (fun e => negb (exercise e)) es))%nat
     | Users =>
         (3 < List.length (filter social es))%nat
         /\ (3 < List.length (filter (fun e => negb (social e)) es))%nat
     | Moon =>
         (2 < List.length (filter (fun e => (sleep e >=? 7)%Z) es))%nat
         /\ (2 < List.length (filter (fun e => (sleep e <? 5)%Z) es))%nat
     | Calendar => (5 <= distinctWeekdays weekday es)%nat
     | Brain => (3 < List.length (filter meditation es))%nat
     end.
Proof.
  intros Hin. split.
  - exact (patterns_long weekday es p Hin).
  - exact (sample_sizes weekday es p Hin).
Qed.

Lemma patterns_need_samples_witness :
  exists p : Pattern float,
    In p (patterns utcWeekday exerciseDays)
    /\ icon p = Dumbbell
    /\ (3 < List.length (filter exercise exerciseDays))%nat.
Proof.
  eexists. assert (Hin : In _ (patterns utcWeekday exerciseDays : list (Pattern float)))
    by (vm_compute; left; reflexivity).
  split; [exact Hin|]. split; [reflexivity|].
  exact (proj1 (proj2 (patterns_need_samples utcWeekday exerciseDays _ Hin))).
Defined.



(** X6. The detector never emits a pattern of type [time]: the sleep
    pattern is the only trigger, the day-of-week pattern the only pattern
    of type [day], and the exercise, social and meditation patterns are
    boosters. *)
Theorem pattern_types {T : Type} `{JSNumber T}
    (weekday : Z -> Weekday) (es : list MoodEntry) (p : Pattern T) :
  In p (patterns weekday es) ->
  type p = match icon p with
           | Moon => trigger
           | Calendar => day
           | Dumbbell | Users | Brain => booster
           end
  /\ type p <> time.
Proof.
  intros Hin.
  pose proof (patterns_long weekday es p Hin) as Hlen.
  pose proof (pattern_by_icon weekday es p Hlen Hin) as Hp.
  assert (Hty : type p = match icon p with
                         | Moon => trigger
                         | Calendar => day
                         | Dumbbell | Users | Brain => booster
                         end).
  { destruct (icon p).
    - rewrite exercisePattern_cases in Hp.
      match type of Hp with (if ?c then _ else _) = _ =>
        destruct c; [|discriminate] end.
      now injection Hp as <-.
    - rewrite socialPattern_when in Hp.
      match type of Hp with (if ?c then _ else _) = _ =>
        destruct c; [|discriminate] end.
      now injection Hp as <-.
    - rewrite sleepPattern_when in Hp.
      match type of Hp with (if ?c then _ else _) = _ =>
        destruct c; [|discriminate] end.
      now injection Hp as <-.
    - apply (dayPattern_icon weekday es p Hp).
    - rewrite meditationPattern_when in Hp.
      match type of Hp with (if ?c then _ else _) = _ =>
        destruct c; [|discriminate] end.
      now injection Hp as <-. }
  split; [exact Hty|]. rewrite Hty. destruct (icon p); discriminate.
Qed.

Lemma pattern_types_witness :
  exists p : Pattern float,
    In p (patterns utcWeekday fullWeek) /\ type p = day /\ type p <> time.
Proof.
  eexists.
  assert (Hin : In _ (patterns utcWeekday fullWeek : list (Pattern float)))
    by (vm_compute; left; reflexivity).
  split; [exact Hin|].
  exact (pattern_types utcWeekday fullWeek _ Hin).
Defined.

(* ================================================================== *)
(** * Further properties of the streak *)
(* ================================================================== *)

Lemma streakLoop_length (now : Z) (i : nat) (xs : list MoodEntry) :
  (streakLoop now i xs <= List.length xs)%nat.
Proof.
  revert i. induction xs as [|x xs IH]; intros i; cbn [streakLoop List.length].
  - lia.
  - destruct (_ =? _); [|lia]. specialize (IH (S i)). lia.
Qed.

(** Each step the walk counts is an entry of the day it expects. *)
Lemma streakLoop_sound (now : Z) (i j : nat) (xs : list MoodEntry) :
  (j < streakLoop now i xs)%nat ->
  exists e, In e xs /\ isoDate (timestamp e) = isoDate now - Z.of_nat (i + j).
Proof.
  revert i j. induction xs as [|x xs IH]; intros i j Hj.
  - cbn in Hj. lia.
  - rewrite streakLoop_cons in Hj.
    destruct (Z.eqb_spec (isoDate (timestamp x)) (isoDate now - Z.of_nat i))
      as [Hx|Hx]; [|lia].
    destruct j as [|j].
    + exists x. split; [now left|]. rewrite Nat.add_0_r. exact Hx.
    + destruct (IH (S i) j) as [e [He Hd]]; [lia|].
      exists e. split; [now right|]. rewrite Hd. f_equal. lia.
Qed.

(** The head of a decreasing list is its latest entry. *)
Lemma descending_head (x e : MoodEntry) (xs : list MoodEntry) :
  descending (x :: xs) -> In e (x :: xs) -> timestamp e <= timestamp x.
Proof.
  unfold descending. intros Hs [->|He]; [lia|].
  inversion Hs as [|? ? _ Hall]; subst. rewrite Forall_forall in Hall.
  now apply Hall.
Qed.

Lemma descending_tail (x : MoodEntry) (xs : list MoodEntry) :
  descending (x :: xs) -> descending xs.
Proof. unfold descending. intros Hs. now inversion Hs. Qed.

(** With one entry per day at most and none on a later day than the
    walk expects, the walk counts every day of a run of days that all
    have an entry. *)
Lemma streakLoop_complete (now : Z) (k : nat) (xs : list MoodEntry) (i : nat) :
  descending xs ->
  NoDup (map (fun e => isoDate (timestamp e)) xs) ->
  (forall e, In e xs -> isoDate (timestamp e) <= isoDate now - Z.of_nat i) ->
  (forall j, (i <= j < k)%nat ->
             exists e, In e xs /\ isoDate (timestamp e) = isoDate now - Z.of_nat j) ->
  (k - i <= streakLoop now i xs)%nat.
Proof.
  revert i. induction xs as [|x xs IH]; intros i Hs Hnd Hup Hrun.
  - destruct (Nat.le_gt_cases k i) as [Hki|Hik]; [cbn; lia|].
    destruct (Hrun i) as [e [[] _]]. lia.
  - destruct (Nat.le_gt_cases k i) as [Hki|Hik]; [lia|].
    destruct (Hrun i) as [e [He Hd]]; [lia|].
    assert (Hx : isoDate (timestamp x) = isoDate now - Z.of_nat i).
    { pose proof (isoDate_mono _ _ (descending_head x e xs Hs He)).
      pose proof (Hup x (or_introl eq_refl)). lia. }
    rewrite streakLoop_cons.
    destruct (Z.eqb_spec (isoDate (timestamp x)) (isoDate now - Z.of_nat i));
      [|contradiction].
    cbn [map] in Hnd. inversion Hnd as [|? ? Hnotin Hnd']; subst.
    assert (Hlt : forall y, In y xs ->
                   isoDate (timestamp y) < isoDate (timestamp x)).
    { intros y Hy.
      pose proof (isoDate_mono _ _ (descending_head x y xs Hs (or_intror Hy))).
      assert (isoDate (timestamp y) <> isoDate (timestamp x)).
      { intros E. apply Hnotin. rewrite <- E.
        apply (in_map (fun e => isoDate (timestamp e))). exact Hy. }
      lia. }
    specialize (IH (S i) (descending_tail x xs Hs) Hnd').
    assert (k - S i <= streakLoop now (S i) xs)%nat; [|lia].
    apply IH.
    + intros y Hy. specialize (Hlt y Hy). lia.
    + intros j Hj. destruct (Hrun j) as [y [[<-|Hy] Hyd]]; [lia| |].
      * lia.
      * now exists y.
Qed.

(** The days of a run are distinct. *)
Lemma run_NoDup (today : Z) (a k : nat) :
  NoDup (map (fun j => today - Z.of_nat j) (seq a k)).
Proof.
  revert a. induction k as [|k IH]; intros a; cbn [seq map]; constructor.
  - intros Hin. apply in_map_iff in Hin. destruct Hin as [j [E Hj]].
    apply in_seq in Hj. lia.
  - apply IH.
Qed.

(** X7. Every day the streak counts has an entry: for each [j] below the
    streak an entry was created [j] days before today.  Hence the streak
    is at most the number of distinct calendar days of the collection,
    and at most the number of entries: entries of one day count once at
    most. *)
Theorem streak_days_have_entries (now : Z) (es : list MoodEntry) :
  (forall j : nat, (j < currentStreak now es)%nat ->
                   exists e, In e es /\ daysAgo now (Z.of_nat j) e)
  /\ (currentStreak now es <= distinctDays es)%nat
  /\ (currentStreak now es <= List.length es)%nat.
Proof.
  assert (Hsound : forall j : nat, (j < currentStreak now es)%nat ->
                     exists e, In e es /\ daysAgo now (Z.of_nat j) e).
  { intros j Hj. destruct (streakLoop_sound now 0 j (sortDesc es) Hj)
      as [e [He Hd]].
    exists e. split; [now apply sortDesc_In|exact Hd]. }
  split; [exact Hsound|]. split.
  - unfold distinctDays.
    set (k := currentStreak now es) in *.
    set (days := map (fun j => isoDate now - Z.of_nat j) (seq 0 k)).
    assert (Hlen : List.length days = k)
      by (unfold days; now rewrite length_map, length_seq).
    rewrite <- Hlen. apply NoDup_incl_length.
    + unfold days. apply run_NoDup.
    + intros d Hd. unfold days in Hd. apply in_map_iff in Hd.
      destruct Hd as [j [<- Hj]]. apply in_seq in Hj.
      destruct (Hsound j) as [e [He Hday]]; [lia|].
      apply nodup_In. apply in_map_iff. exists e. split; [exact Hday|exact He].
  - unfold currentStreak.
    rewrite <- (Permutation_length (sortDesc_Permutation es)).
    apply streakLoop_length.
Qed.

(** X8. With at most one entry per calendar day and no entry on a later
    day than today, the streak is the length of the run of days, from
    today backwards, that have an entry: it reaches [k] exactly when each
    of the [k] days up to today has one. *)
Theorem streak_counts_run (now : Z) (es : list MoodEntry) (k : nat) :
  NoDup (map (fun e => isoDate (timestamp e)) es) ->
  (forall e, In e es -> isoDate (timestamp e) <= isoDate now) ->
  ((k <= currentStreak now es)%nat
   <-> forall j : nat, (j < k)%nat ->
                       exists e, In e es /\ daysAgo now (Z.of_nat j) e).
Proof.
  intros Hnd Hup. split.
  - intros Hk j Hj.
    destruct (streakLoop_sound now 0 j (sortDesc es)) as [e [He Hd]];
      [unfold currentStreak in Hk; lia|].
    exists e. split; [now apply sortDesc_In|exact Hd].
  - intros Hrun. unfold currentStreak.
    replace k with (k - 0)%nat by lia. apply streakLoop_complete.
    + apply sortDesc_descending.
    + apply (Permutation_NoDup
               (Permutation_map _ (Permutation_sym (sortDesc_Permutation es)))).
      exact Hnd.
    + intros e He. apply (proj1 (sortDesc_In _ _)) in He. cbn [Z.of_nat].
      rewrite Z.sub_0_r. now apply Hup.
    + intros j Hj. destruct (Hrun j) as [e [He Hd]]; [lia|].
      exists e. split; [now apply sortDesc_In|exact Hd].
Qed.

Lemma streak_counts_run_witness :
  NoDup (map (fun e => isoDate (timestamp e)) twoDays)
  /\ (forall e, In e twoDays -> isoDate (timestamp e) <= isoDate instant)
  /\ (2 <= currentStreak instant twoDays)%nat.
Proof.
  assert (Hnd : NoDup (map (fun e => isoDate (timestamp e)) twoDays)).
  { vm_compute. repeat constructor; cbn; intuition discriminate. }
  assert (Hup : forall e, In e twoDays ->
                          isoDate (timestamp e) <= isoDate instant).
  { intros e [<-|[<-|[]]]; vm_compute; discriminate. }
  split; [exact Hnd|]. split; [exact Hup|].
  apply (proj2 (streak_counts_run instant twoDays 2 Hnd Hup)).
  intros [|[|j]] Hj; [| |lia].
  - eexists. split; [left; reflexivity | reflexivity].
  - eexists. split; [right; left; reflexivity | reflexivity].
Defined.

(** X9. The streak does not depend on the order in which the collection
    holds its entries. *)
Theorem streak_order_independent (now : Z) (es es' : list MoodEntry) :
  Permutation es es' -> currentStreak now es = currentStreak now es'.
Proof. apply currentStreak_Permutation. Qed.

Lemma streak_order_independent_witness :
  Permutation twoDays (rev twoDays)
  /\ currentStreak instant twoDays = currentStreak instant (rev twoDays).
Proof.
  assert (Hp : Permutation twoDays (rev twoDays)) by apply Permutation_rev.
  split; [exact Hp|].
  exact (streak_order_independent instant twoDays (rev twoDays) Hp).
Defined.

(** X10. An entry created on a later calendar day than today, whatever
    the other entries, makes the streak 0; and when no entry is of a later
    day, the streak is positive exactly when an entry was created today. *)
Theorem streak_and_latest_entry (now : Z) (es : list MoodEntry) :
  ((exists e, In e es /\ isoDate now < isoDate (timestamp e)) ->
   currentStreak now es = O)
  /\ ((forall e, In e es -> isoDate (timestamp e) <= isoDate now) ->
      ((0 < currentStreak now es)%nat
       <-> exists e, In e es /\ daysAgo now 0 e)).
Proof.
  split.
  - intros [e [He Hlate]]. unfold currentStreak.
    pose proof (sortDesc_descending es) as Hs.
    apply (proj2 (sortDesc_In _ _)) in He.
    destruct (sortDesc es) as [|x xs]; [destruct He|].
    apply streakLoop_miss. cbn [Z.of_nat]. rewrite Z.sub_0_r.
    pose proof (isoDate_mono _ _ (descending_head x e xs Hs He)). lia.
  - intros Hup. split.
    + intros Hpos.
      destruct (streakLoop_sound now 0 0 (sortDesc es) Hpos) as [e [He Hd]].
      exists e. split; [now apply sortDesc_In|exact Hd].
    + intros [e [He Hd]]. unfold currentStreak.
      pose proof (sortDesc_descending es) as Hs.
      apply (proj2 (sortDesc_In _ _)) in He.
      assert (Hall : forall y, In y (sortDesc es) ->
                               isoDate (timestamp y) <= isoDate now)
        by (intros y Hy; apply Hup; now apply sortDesc_In).
      destruct (sortDesc es) as [|x xs]; [destruct He|].
      rewrite streakLoop_cons. cbn [Z.of_nat]. rewrite Z.sub_0_r.
      pose proof (isoDate_mono _ _ (descending_head x e xs Hs He)).
      pose proof (Hall x (or_introl eq_refl)).
      unfold daysAgo in Hd. rewrite Z.sub_0_r in Hd.
      destruct (Z.eqb_spec (isoDate (timestamp x)) (isoDate now)); lia.
Qed.

(* ================================================================== *)
(** * Further properties of the statistics *)
(* ================================================================== *)

(** Two disjoint selections within a third. *)
Lemma filter_disjoint_within {A : Type} (p q r : A -> bool) (xs : list A) :
  (forall x, p x = true -> q x = false /\ r x = true) ->
  (forall x, q x = true -> r x = true) ->
  (List.length (filter p xs) + List.length (filter q xs)
   <= List.length (filter r xs))%nat.
Proof.
  intros Hp Hq. induction xs as [|x xs IH]; cbn [filter]; [cbn; lia|].
  destruct (p x) eqn:Ep, (q x) eqn:Eq.
  - destruct (Hp x Ep). congruence.
  - destruct (Hp x Ep) as [_ ->]. cbn [List.length]. lia.
  - rewrite (Hq x Eq). cbn [List.length]. lia.
  - destruct (r x); cbn [List.length]; lia.
Qed.

Lemma windows_nested (now : Z) (es : list MoodEntry) :
  (List.length (last7Days now es) + List.length (prevWeek now es)
   <= List.length (last30Days now es))%nat.
Proof.
  unfold last7Days, prevWeek, last30Days. pose proof DAY_pos.
  apply filter_disjoint_within; intros e Hb.
  - apply Z.ltb_lt in Hb. split.
    + apply andb_false_iff. left. apply Z.ltb_ge. lia.
    + apply Z.ltb_lt. lia.
  - apply andb_true_iff in Hb. destruct Hb as [_ Hb].
    rewrite Z.gtb_ltb in Hb. apply Z.ltb_lt in Hb. apply Z.ltb_lt. lia.
Qed.

(** The snapshot of a collection that has one. *)
Lemma stats_some {T : Type} `{JSNumber T} (now : Z) (es : list MoodEntry)
    (s : Snapshot.t T) :
  stats now es = Some s ->
  es <> []
  /\ s = {|
      Snapshot.avgMood := toFixed1 (avgMood now es);
      Snapshot.avgEnergy := toFixed1 (avgEnergy now es);
      Snapshot.avgAnxiety := toFixed1 (avgAnxiety now es);
      Snapshot.avgSleep := toFixed1 (avgSleep now es);
      Snapshot.exerciseCount := exerciseCount now es;
      Snapshot.socialCount := socialCount now es;
      Snapshot.meditationCount := meditationCount now es;
      Snapshot.currentStreak := currentStreak now es;
      Snapshot.wellnessScore := wellnessScore now es;
      Snapshot.moodChange := toFixed1 (moodChange now es);
      Snapshot.totalEntries := List.length es;
      Snapshot.last7Days := List.length (last7Days now es);
      Snapshot.last30Days := List.length (last30Days now es)
    |}.
Proof.
  destruct es as [|e es]; [discriminate|].
  intros Hs. split; [discriminate|]. unfold stats in Hs. congruence.
Qed.

(** X11. The counts of a snapshot are ordered: each activity count is at
    most the number of entries of the last seven days; these entries and
    those of the prior week are disjoint and both among the entries of
    the last thirty days, which are at most the total; the total is at
    least 1 and the streak at most the total. *)
Theorem snapshot_counts {T : Type} `{JSNumber T}
    (now : Z) (es : list MoodEntry) (s : Snapshot.t T) :
  stats now es = Some s ->
  (Snapshot.exerciseCount s <= Snapshot.last7Days s)%nat
  /\ (Snapshot.socialCount s <= Snapshot.last7Days s)%nat
  /\ (Snapshot.meditationCount s <= Snapshot.last7Days s)%nat
  /\ (Snapshot.last7Days s + List.length (prevWeek now es)
      <= Snapshot.last30Days s)%nat
  /\ (Snapshot.last30Days s <= Snapshot.totalEntries s)%nat
  /\ (1 <= Snapshot.totalEntries s)%nat
  /\ (Snapshot.currentStreak s <= Snapshot.totalEntries s)%nat
  /\ (forall e, In e (prevWeek now es) -> ~ In e (last7Days now es)).
Proof.
  intros Hs. destruct (stats_some now es s Hs) as [Hne ->].
  cbn [Snapshot.exerciseCount Snapshot.socialCount
    Snapshot.meditationCount Snapshot.last7Days Snapshot.last30Days
    Snapshot.totalEntries Snapshot.currentStreak].
  repeat split.
  - apply filter_length_le.
  - apply filter_length_le.
  - apply filter_length_le.
  - apply windows_nested.
  - apply filter_length_le.
  - destruct es; [congruence | cbn; lia].
  - unfold currentStreak.
    rewrite <- (Permutation_length (sortDesc_Permutation es)).
    apply streakLoop_length.
  - intros e Hprev Hweek. unfold prevWeek, last7Days in *.
    apply filter_In in Hprev. apply filter_In in Hweek.
    destruct Hprev as [_ Hp]. destruct Hweek as [_ Hw].
    apply andb_true_iff in Hp. destruct Hp as [Hp _].
    apply Z.ltb_lt in Hp. apply Z.ltb_lt in Hw. lia.
Qed.

Lemma snapshot_counts_witness :
  exists s : Snapshot.t float,
    stats instant fortnight = Some s
    /\ (Snapshot.last30Days s <= Snapshot.totalEntries s)%nat.
Proof.
  eexists. assert (Hs : stats instant fortnight = Some _) by reflexivity.
  split; [exact Hs|].
  exact (proj1 (proj2 (proj2 (proj2 (proj2
           (snapshot_counts instant fortnight _ Hs)))))).
Defined.




Section EmptyWeek.
Context {T : Type} `{JSNumber T}.

(** The score when no entry is of the last seven days. *)
Lemma wellnessScore_of_empty_week (now : Z) (es : list MoodEntry) :
  truthy (ofZ 0 / ofZ 0 : T)%js = false ->
  last7Days now es = [] ->
  wellnessScore now es
  = round
      ((ofZ 0 * dec 3 10
        + ofZ 0 * dec 2 10
        + (ofZ 10 - ofZ 0) * dec 2 10
        + ofZ 0 * dec 15 100
        + (ofZ 0 / ofZ 7 * ofZ 10) * dec 1 10
        + (ofZ 0 / ofZ 7 * ofZ 10) * dec 5 100)
       * ofZ 10 : T)%js.
Proof.
  intros Hnan Hempty. unfold wellnessScore.
  destruct (averages_of_empty_week now es Hnan Hempty) as [-> [-> [-> ->]]].
  unfold count, exerciseCount, socialCount. rewrite Hempty. reflexivity.
Qed.

End EmptyWeek.

(** X13. When no entry is of the last seven days, the wellness score is
    20: the averages are 0, and the inverted anxiety contributes
    (10 - 0) * 0.2 * 10.  This holds on doubles and on exact numbers. *)
Theorem stale_collection_score (now : Z) (es : list MoodEntry) :
  last7Days now es = [] ->
  wellnessScore now es = (ofZ 20 : float)
  /\ wellnessScore now es = (ofZ 20 : Exact.num).
Proof.
  intros Hempty. split.
  - assert (Hnan : truthy (ofZ 0 / ofZ 0 : float)%js = false)
      by (vm_compute; reflexivity).
    rewrite (wellnessScore_of_empty_week now es Hnan Hempty).
    vm_compute. reflexivity.
  - assert (Hnan : truthy (ofZ 0 / ofZ 0 : Exact.num)%js = false)
      by reflexivity.
    rewrite (wellnessScore_of_empty_week now es Hnan Hempty).
    change (ofZ 20 : Exact.num) with (Exact.Fin (Exact.zq 20)).
    match goal with |- ?a = _ =>
      let v := eval vm_compute in a in
      match v with
      | Exact.Fin ?q => change (Exact.Fin q = Exact.Fin (Exact.zq 20))
      end
    end.
    f_equal; try (apply Qc_is_canon; reflexivity).
Qed.

Lemma stale_collection_score_witness :
  last7Days instant [entry (instant - 20 * DAY) 5 5 5 5 false false false] = []
  /\ wellnessScore instant
       [entry (instant - 20 * DAY) 5 5 5 5 false false false]
     = (ofZ 20 : float).
Proof.
  assert (He : last7Days instant
                 [entry (instant - 20 * DAY) 5 5 5 5 false false false] = [])
    by reflexivity.
  split; [exact He|].
  exact (proj1 (stale_collection_score instant _ He)).
Defined.




(* ================================================================== *)
(** * The trend chart and the weekday groups *)
(* ================================================================== *)

(** X15. The trend series holds the first thirty entries of the
    collection, or all of them when there are fewer, in reverse order:
    its length is min(30, n), its point [i] carries the date label and the
    four scores of entry number min(30, n) - 1 - [i], and entries past the
    thirtieth have no effect on it. *)
Theorem trend_series (shortDate : Z -> string) (es : list MoodEntry) :
  let n := Nat.min 30 (List.length es) in
  List.length (moodTrendData shortDate es) = n
  /\ (forall i, (i < n)%nat ->
        nth_error (moodTrendData shortDate es) i
        = option_map (trendPoint shortDate) (nth_error es (n - 1 - i)))
  /\ (forall more, (30 <= List.length es)%nat ->
        moodTrendData shortDate (es ++ more) = moodTrendData shortDate es).
Proof.
  intros n. unfold moodTrendData.
  assert (Hlen : List.length (firstn 30 es) = n) by apply length_firstn.
  split; [|split].
  - now rewrite length_map, length_rev.
  - intros i Hi.
    change (fun entry : MoodEntry =>
              {| Trend.date := shortDate (timestamp entry);
                 Trend.mood := mood entry;
                 Trend.energy := energy entry;
                 Trend.anxiety := anxiety entry;
                 Trend.sleep := sleep entry |})
      with (trendPoint shortDate).
    rewrite nth_error_map, nth_error_rev, Hlen.
    destruct (Nat.ltb_spec i n); [|lia].
    rewrite nth_error_firstn.
    destruct (Nat.ltb_spec (n - S i) 30); [|lia].
    do 2 f_equal. lia.
  - intros more H30. rewrite firstn_app.
    replace (30 - List.length es)%nat with 0%nat by lia.
    cbn [firstn]. now rewrite app_nil_r.
Qed.

Lemma pushDay_total (d : Weekday) (m : Z) (dm : list (Weekday * list Z)) :
  groupedMoods (pushDay d m dm) = S (groupedMoods dm).
Proof.
  assert (Hcons : forall kv rest,
            groupedMoods (kv :: rest)
            = (List.length (snd kv) + groupedMoods rest)%nat)
    by reflexivity.
  induction dm as [|[k moods] rest IH]; cbn [pushDay].
  - reflexivity.
  - destruct (Weekday_eqb k d); rewrite !Hcons; cbn [snd].
    + rewrite length_app. cbn. lia.
    + rewrite IH. lia.
Qed.

Lemma dayMoods_total (weekday : Z -> Weekday) (es : list MoodEntry)
    (acc : list (Weekday * list Z)) :
  groupedMoods
    (fold_left
       (fun acc entry => pushDay (weekday (timestamp entry)) (mood entry) acc)
       es acc)
  = (groupedMoods acc + List.length es)%nat.
Proof.
  revert acc. induction es as [|e es IH]; intros acc; cbn [fold_left List.length].
  - lia.
  - rewrite IH, pushDay_total. lia.
Qed.

(** X16. The grouping by weekday loses and repeats nothing: [dayMoods]
    has one key per weekday on which an entry was created and no other;
    under each key it holds the moods of the entries of that weekday, in
    the order of the collection, so no key is empty; and it holds as many
    moods as there are entries. *)
Theorem dayMoods_grouping (weekday : Z -> Weekday) (es : list MoodEntry) :
  NoDup (map fst (dayMoods weekday es))
  /\ (forall k, In k (map fst (dayMoods weekday es))
                <-> represented weekday es k)
  /\ (forall k moods,
        In (k, moods) (dayMoods weekday es) ->
        moods = map mood (onWeekday weekday k es) /\ moods <> [])
  /\ groupedMoods (dayMoods weekday es) = List.length es.
Proof.
  destruct (dayMoods_keys weekday es [] (NoDup_nil _)) as [Hnd Hkeys].
  split; [exact Hnd|]. split; [|split].
  - intros k. unfold dayMoods, represented. rewrite (Hkeys k). cbn. tauto.
  - intros k moods Hin.
    destruct (dayMoods_In weekday es k moods Hin) as [Hrep ->].
    split; [reflexivity|].
    pose proof (onWeekday_some weekday k es Hrep) as Hne.
    destruct (onWeekday weekday k es); [congruence | discriminate].
  - unfold dayMoods. now rewrite dayMoods_total.
Qed.

(* ================================================================== *)
(** * Loading and saving *)
(* ================================================================== *)

(** X17. A save that does not succeed leaves the collection and the form
    as they are: without a token no request is made; in every case but a
    successful response whose body is read, the entries, the scores and
    activities of the form, its notes and the open form are unchanged,
    the saving flag is down again and the user is shown an alert. *)
Theorem save_failure (getTime : string -> Z) (token : option string)
    (outcome : SaveOutcome) (st : Page.state) :
  bearer token = None \/ (forall log, outcome <> Saved (Some log)) ->
  let (st', effects) := saveMoodEntry getTime token outcome st in
  st' = Page.setIsSaving false st
  /\ Page.moodEntries st' = Page.moodEntries st
  /\ Page.showQuickLog st' = Page.showQuickLog st
  /\ Page.quickNotes st' = Page.quickNotes st
  /\ Page.isSaving st' = false
  /\ (exists message, In (Alert message) effects)
  /\ (bearer token = None ->
      effects = [Alert "Please log in to save mood entries"]).
Proof.
  intros Hfail. unfold saveMoodEntry.
  destruct (bearer token) as [t|] eqn:Et.
  - destruct Hfail as [Hno|Hnot]; [discriminate|].
    destruct outcome as [|[detail|]|[log|]];
      try (exfalso; apply (Hnot log); reflexivity);
      (repeat split; [eexists; cbn; eauto | discriminate]).
  - repeat split. eexists. now left.
Qed.

Lemma save_failure_witness :
  (forall log, SaveRefused (Some (Some "Invalid date"%string))
               <> Saved (Some log))
  /\ Page.moodEntries
       (fst (saveMoodEntry (fun _ => instant) (Some "t0"%string)
               (SaveRefused (Some (Some "Invalid date"%string)))
               Page.initial))
     = Page.moodEntries Page.initial
  /\ exists message,
       In (Alert message)
          (snd (saveMoodEntry (fun _ => instant) (Some "t0"%string)
                  (SaveRefused (Some (Some "Invalid date"%string)))
                  Page.initial)).
Proof.
  assert (Hnot : forall log, SaveRefused (Some (Some "Invalid date"%string))
                             <> Saved (Some log))
    by (intros log; discriminate).
  split; [exact Hnot|].
  pose proof (save_failure (fun _ => instant) (Some "t0"%string)
                (SaveRefused (Some (Some "Invalid date"%string)))
                Page.initial (or_intror Hnot)) as Hs.
  split.
  - exact (proj1 (proj2 Hs)).
  - exact (proj1 (proj2 (proj2 (proj2 (proj2 (proj2 Hs)))))).
Defined.

(** X18. A successful save puts the entry made of the saved log at the
    head of the collection and leaves the entries that were there after
    it; the form is closed and its notes are cleared, while its scores and
    activities stay as they were set; no alert is shown; the page no
    longer shows the empty state, and the snapshot of the new collection
    exists, with one more entry in total. *)
Theorem save_success {T : Type} `{JSNumber T}
    (getTime : string -> Z) (now : Z) (token : option string) (t : string)
    (log : Api.MoodLog) (st : Page.state) :
  bearer token = Some t ->
  let (st', effects) := saveMoodEntry getTime token (Saved (Some log)) st in
  Page.moodEntries st' = toEntry getTime log :: Page.moodEntries st
  /\ Page.showQuickLog st' = false
  /\ Page.quickNotes st' = ""%string
  /\ (Page.quickMood st', Page.quickEnergy st', Page.quickAnxiety st',
      Page.quickSleep st')
     = (Page.quickMood st, Page.quickEnergy st, Page.quickAnxiety st,
        Page.quickSleep st)
  /\ (Page.quickExercise st', Page.quickSocial st', Page.quickMeditation st')
     = (Page.quickExercise st, Page.quickSocial st, Page.quickMeditation st)
  /\ Page.isSaving st' = false
  /\ effects = [Post "/api/mood-logs" t]
  /\ (Page.isLoadingEntries st = false -> screen st' = TabScreen (Page.view st))
  /\ exists s : Snapshot.t T,
       stats now (Page.moodEntries st') = Some s
       /\ Snapshot.totalEntries s = S (List.length (Page.moodEntries st)).
Proof.
  intros Et. unfold saveMoodEntry. rewrite Et. cbn zeta.
  repeat split.
  - intros Hl. unfold screen. cbn. now rewrite Hl.
  - eexists. split; reflexivity.
Qed.

Lemma save_success_witness :
  bearer (Some "t0"%string) = Some "t0"%string
  /\ Page.moodEntries
       (fst (saveMoodEntry (fun _ => instant) (Some "t0"%string)
               (Saved (Some sampleLog)) Page.initial))
     = [toEntry (fun _ => instant) sampleLog].
Proof.
  assert (Et : bearer (Some "t0"%string) = Some "t0"%string) by reflexivity.
  split; [exact Et|].
  pose proof (save_success (T := float) (fun _ => instant) instant
                (Some "t0"%string) "t0" sampleLog Page.initial Et) as Hs.
  exact (proj1 Hs).
Defined.

(** X19. Loading ends the loading state whatever happens, and touches
    nothing but the entries: they are replaced only when a token is
    stored and the response is read, by the entries made of the logs, in
    their order, with the same scores and activities; otherwise they are
    kept.  Without a token no request is made; a refused request is
    silent, a failed one is written to the console. *)
Theorem load_outcomes (getTime : string -> Z) (token : option string)
    (outcome : LoadOutcome) (st : Page.state) :
  let (st', effects) := loadMoodEntries getTime token outcome st in
  Page.isLoadingEntries st' = false
  /\ screen st' <> LoadingScreen
  /\ st' = Page.setIsLoadingEntries false
             (Page.setMoodEntries (Page.moodEntries st') st)
  /\ match bearer token, outcome with
     | Some t, Loaded (Some logs) =>
         Page.moodEntries st' = map (toEntry getTime) logs
         /\ map mood (Page.moodEntries st') = map Api.mood logs
         /\ map energy (Page.moodEntries st') = map Api.energy logs
         /\ map anxiety (Page.moodEntries st') = map Api.anxiety logs
         /\ map sleep (Page.moodEntries st') = map Api.sleep logs
         /\ map (fun e => (exercise e, social e, meditation e))
                (Page.moodEntries st')
            = map (fun l => (Api.exercise (Api.activities l),
                             Api.social (Api.activities l),
                             Api.meditation (Api.activities l))) logs
         /\ effects = [Get "/api/mood-logs?limit=100" t]
     | Some t, LoadRefused =>
         Page.moodEntries st' = Page.moodEntries st
         /\ effects = [Get "/api/mood-logs?limit=100" t]
     | Some t, _ =>
         Page.moodEntries st' = Page.moodEntries st
         /\ effects = [Get "/api/mood-logs?limit=100" t;
                       ConsoleError "Failed to load mood entries:"]
     | None, _ =>
         Page.moodEntries st' = Page.moodEntries st /\ effects = []
     end.
Proof.
  unfold loadMoodEntries.
  assert (Hscreen : forall s, Page.isLoadingEntries s = false ->
                              screen s <> LoadingScreen).
  { intros s Hs. unfold screen. rewrite Hs.
    destruct (_ =? _)%nat; discriminate. }
  destruct (bearer token) as [t|];
    [destruct outcome as [| |[logs|]]|];
    (split; [reflexivity|]); (split; [now apply Hscreen|]);
    (split; [destruct st; reflexivity|]);
    cbn [Page.moodEntries Page.setIsLoadingEntries Page.setMoodEntries];
    rewrite ?map_map; repeat split.
Qed.

(** X20. From the state the component is mounted with, a load that does
    not bring entries ends on the empty state, where there is no snapshot
    and no pattern; a load that brings at least one log ends on the
    dashboard, with a snapshot. *)
Theorem load_from_mount {T : Type} `{JSNumber T}
    (getTime : string -> Z) (weekday : Z -> Weekday) (now : Z)
    (token : option string) (outcome : LoadOutcome) :
  let st' := fst (loadMoodEntries getTime token outcome Page.initial) in
  match bearer token, outcome with
  | Some _, Loaded (Some (log :: logs)) =>
      screen st' = TabScreen dashboard
      /\ exists s : Snapshot.t T,
           stats now (Page.moodEntries st') = Some s
           /\ Snapshot.totalEntries s = S (List.length logs)
  | _, _ =>
      screen st' = EmptyScreen
      /\ stats now (Page.moodEntries st') = (None : option (Snapshot.t T))
      /\ patterns weekday (Page.moodEntries st') = ([] : list (Pattern T))
  end.
Proof.
  unfold loadMoodEntries.
  destruct (bearer token) as [t|];
    [destruct outcome as [| |[[|log logs]|]]|]; cbn [fst].
  - repeat split.
  - repeat split.
  - repeat split.
  - split; [reflexivity|]. eexists. split; [reflexivity|].
    cbn. now rewrite length_map.
  - repeat split.
  - destruct outcome as [| |[[|log logs]|]]; repeat split.
Qed.
